(** * browser_use.browser.browser: the Browser factory and its lifecycle

    A shallow embedding of [src/browser_use/browser/browser.py].  The module
    talks to four outside parties: the [requests] library (the probe of the
    local debugging endpoint), [subprocess] (the spawn of a Chrome process),
    the automation library ([DrissionPage(url=...)], [DrissionPage(options=...)]
    and [page.close()]) and the logger.  Every such call is recorded, in
    order, in a trace; what the fallible ones answer is read from an
    environment [Env], which sees the trace so far.  Methods of [Browser] are
    computations in a state-and-exception monad over the object's fields and
    that trace.

    The calls the source guards with a [try] ([requests.get], the two forms
    of [DrissionPage(...)], [page.close()]) may raise, and so may
    [subprocess.Popen], which the source does not guard; the others (the
    logger, [asyncio.sleep], [gc.collect]) are taken to return.  Exceptions
    are those below [Exception]; cancellation and the other [BaseException]
    signals are not modelled, and neither are [new_context] and [__del__],
    which only hand over to code outside this file. *)

From Stdlib Require Import ZArith.
From stdpp Require Import base option list strings gmap.

Local Open Scope string_scope.
Local Open Scope Z_scope.
Local Open Scope list_scope.

(** ** Exceptions *)

(** The exceptions the module raises itself ([ValueError], [RuntimeError]),
    the one a dictionary subscript raises ([KeyError]), three classes of
    [requests.exceptions], any other [Exception] coming from a library, and
    [OSError] with its subclasses ([FileNotFoundError], [PermissionError]),
    which [subprocess.Popen] raises for a program it cannot start. *)
Inductive exn : Type :=
  | ValueError (msg : string)
  | RuntimeError (msg : string)
  | KeyError (key : string)
  | requests_ConnectionError (msg : string)
  | requests_ConnectTimeout (msg : string)
  | requests_ReadTimeout (msg : string)
  | LibraryError (msg : string)
  | OSError (msg : string).

(** [isinstance(e, requests.ConnectionError)], the test made by
    [except requests.ConnectionError].  In [requests.exceptions],
    [ConnectTimeout] derives from [ConnectionError] and [Timeout], whereas
    [ReadTimeout] derives from [Timeout] alone. *)
Definition isinstance_ConnectionError (e : exn) : bool :=
  match e with
  | requests_ConnectionError _ | requests_ConnectTimeout _ => true
  | _ => false
  end.

(** [str(e)].  A [KeyError] prints the [repr] of its key. *)
Definition str (e : exn) : string :=
  match e with
  | ValueError m | RuntimeError m | LibraryError m | OSError m => m
  | requests_ConnectionError m | requests_ConnectTimeout m
  | requests_ReadTimeout m => m
  | KeyError k => "'" +:+ k +:+ "'"
  end.

(** ** Python truthiness *)

Definition truthy_str (o : option string) : bool :=
  match o with
  | None => false
  | Some s => negb (String.eqb s "")
  end.

Definition truthy_list {A} (l : list A) : bool :=
  match l with
  | [] => false
  | _ :: _ => true
  end.

Definition truthy_dict (o : option (gmap string string)) : bool :=
  match o with
  | None => false
  | Some d => negb (bool_decide (d = ∅))
  end.

(** ** Configuration and object state *)

(** [BrowserContextConfig] is declared in [browser_use.browser.context]; no
    method below reads any of its fields. *)
Inductive BrowserContextConfig : Type := BrowserContextConfig_default.

Record BrowserConfig : Type := {
  headless : bool;
  disable_security : bool;
  extra_chromium_args : list string;
  chrome_instance_path : option string;
  wss_url : option string;
  cdp_url : option string;
  proxy : option (gmap string string);
  new_context_config : BrowserContextConfig;
  _force_keep_browser_alive : bool
}.

(** A [DrissionPage] object, known by its identity. *)
Definition Handle : Type := nat.

Record Browser : Type := {
  config : BrowserConfig;
  drission : option Handle;
  disable_security_args : list string
}.

Definition set_drission (b : Browser) (d : option Handle) : Browser :=
  {| config := config b;
     drission := d;
     disable_security_args := disable_security_args b |}.

(** ** Calls to the outside, and what they answer *)

Inductive level : Type := DEBUG | INFO | ERROR.

Inductive stream : Type := DEVNULL.

Inductive event : Type :=
  | Log (lvl : level) (msg : string)              (* logger.debug/info/error *)
  | Get (url : string) (timeout : Z)              (* requests.get(url, timeout=) *)
  | Popen (argv : list string) (stdout stderr : stream)   (* subprocess.Popen *)
  | Sleep (seconds : Z)                           (* await asyncio.sleep *)
  | Connect (url : string)                        (* DrissionPage(url=) *)
  | Launch (arguments : list string)              (* DrissionPage(options=) *)
  | PageClose (h : Handle)                        (* self.drission.close() *)
  | GcCollect.                                    (* gc.collect() *)

Inductive outcome (A : Type) : Type :=
  | Return (a : A)
  | Raise (e : exn).
Arguments Return {A} a.
Arguments Raise {A} e.

(** How [subprocess.Popen] fails: the program cannot be started (an
    [OSError]), or the arguments are refused (a [ValueError], as for a path
    with a null byte). *)
Inductive spawn_failure : Type :=
  | cannot_execute (msg : string)
  | refused_arguments (msg : string).

Definition spawn_exn (f : spawn_failure) : exn :=
  match f with
  | cannot_execute msg => OSError msg
  | refused_arguments msg => ValueError msg
  end.

(** Each answer may depend on everything that happened before the call.
    [subprocess_Popen] answers [None] when the child was started. *)
Record Env : Type := {
  requests_get : list event → string → outcome Z;      (* the status code *)
  subprocess_Popen : list event → list string → option spawn_failure;
  DrissionPage_url : list event → string → outcome Handle;
  DrissionPage_options : list event → list string → outcome Handle;
  page_close : list event → Handle → outcome unit
}.

(** ** The monad of methods *)

Record World : Type := {
  self : Browser;
  trace : list event
}.

Definition M (A : Type) : Type := World → outcome A * World.

Definition ret {A} (a : A) : M A := λ w, (Return a, w).

Definition raise {A} (e : exn) : M A := λ w, (Raise e, w).

Definition bind {A B} (m : M A) (k : A → M B) : M B :=
  λ w, match m w with
       | (Return a, w') => k a w'
       | (Raise e, w') => (Raise e, w')
       end.

Notation "x <- m ;; k" := (bind m (λ x, k))
  (at level 100, m at next level, right associativity).
Notation "m ;;; k" := (bind m (λ _, k))
  (at level 100, right associativity).

(** [try: body  except C as e: handler e], where [catches] is the test
    [isinstance(e, C)]. *)
Definition try_except {A} (body : M A) (catches : exn → bool)
    (handler : exn → M A) : M A :=
  λ w, match body w with
       | (Return a, w') => (Return a, w')
       | (Raise e, w') => if catches e then handler e w' else (Raise e, w')
       end.

(** [try: body  finally: final]; [final] never raises in this module. *)
Definition try_finally {A} (body : M A) (final : M unit) : M A :=
  λ w, match body w with
       | (r, w') =>
           match final w' with
           | (Return _, w'') => (r, w'')
           | (Raise e, w'') => (Raise e, w'')
           end
       end.

Definition get_self : M Browser := λ w, (Return (self w), w).

Definition assign_drission (d : option Handle) : M unit :=
  λ w, (Return (), {| self := set_drission (self w) d; trace := trace w |}).

Definition emit (e : event) : M unit :=
  λ w, (Return (), {| self := self w; trace := trace w ++ [e] |}).

(** A call whose answer the environment gives: the call is recorded, then
    its answer (a value or an exception) is delivered. *)
Definition call {A} (e : event) (answer : list event → outcome A) : M A :=
  λ w, (answer (trace w), {| self := self w; trace := trace w ++ [e] |}).

(** ** The methods of [Browser] *)

(** [ChromeOptions]: the arguments given to [add_argument], in order. *)
Definition ChromeOptions : Type := list string.

Definition ChromeOptions_new : ChromeOptions := [].

Definition add_argument (options : ChromeOptions) (arg : string) : ChromeOptions :=
  options ++ [arg].

(** [Browser.__init__]: the new object, and the trace [t] with the line the
    constructor logs. *)
Definition Browser__init__ (cfg : BrowserConfig) (t : list event) : World :=
  {| self :=
       {| config := cfg;
          drission := None;
          disable_security_args :=
            if disable_security cfg
            then ["--disable-web-security";
                  "--disable-site-isolation-trials";
                  "--disable-features=IsolateOrigins,site-per-process"]
            else [] |};
     trace := t ++ [Log DEBUG "Initializing new browser"] |}.

Definition probe_url : string := "http://localhost:9222/json/version".
Definition debug_url : string := "http://localhost:9222".

Definition conflict_message : string :=
  "To start chrome in Debug mode, you need to close all existing Chrome instances and try again otherwise we cannot connect to the instance.".

(** The thirteen arguments of the list [args] in [_setup_standard_browser]. *)
Definition standard_args : list string :=
  ["--no-sandbox";
   "--disable-blink-features=AutomationControlled";
   "--disable-infobars";
   "--disable-background-timer-throttling";
   "--disable-popup-blocking";
   "--disable-backgrounding-occluded-windows";
   "--disable-renderer-backgrounding";
   "--disable-window-activation";
   "--disable-focus-on-load";
   "--no-first-run";
   "--no-default-browser-check";
   "--no-startup-window";
   "--window-position=0,0"].

Section Methods.

Variable env : Env.

(** [requests.get(probe_url, timeout=2)], giving [response.status_code]. *)
Definition probe : M Z :=
  call (Get probe_url 2) (λ t, requests_get env t probe_url).

Definition connect (url : string) : M Handle :=
  call (Connect url) (λ t, DrissionPage_url env t url).

(** [subprocess.Popen(argv, stdout=DEVNULL, stderr=DEVNULL)]; the process
    object it returns is dropped by the source. *)
Definition spawn (argv : list string) : M unit :=
  call (Popen argv DEVNULL DEVNULL)
    (λ t, match subprocess_Popen env t argv with
          | None => Return ()
          | Some f => Raise (spawn_exn f)
          end).

Definition launch (options : ChromeOptions) : M Handle :=
  call (Launch options) (λ t, DrissionPage_options env t options).

(** [_init]; the timing decorator around it belongs to the automation
    library and is left out. *)
Definition _init : M Handle :=
  b <- get_self ;;
  let options := ChromeOptions_new in
  let options :=
    if headless (config b) then add_argument options "--headless" else options in
  let options :=
    if truthy_list (extra_chromium_args (config b))
    then fold_left add_argument (extra_chromium_args (config b)) options
    else options in
  let options :=
    if truthy_list (disable_security_args b)
    then fold_left add_argument (disable_security_args b) options
    else options in
  h <- launch options ;;
  assign_drission (Some h) ;;;
  ret h.

Definition get_drission_browser : M Handle :=
  b <- get_self ;;
  match drission b with
  | None => _init
  | Some h => ret h
  end.

Definition _setup_cdp : M Handle :=
  b <- get_self ;;
  if negb (truthy_str (cdp_url (config b)))
  then raise (ValueError "CDP URL is required")
  else
    let url := default "None" (cdp_url (config b)) in
    emit (Log INFO ("Connecting to remote browser via CDP " +:+ url)) ;;;
    h <- connect url ;;
    assign_drission (Some h) ;;;
    ret h.

Definition _setup_wss : M Handle :=
  b <- get_self ;;
  if negb (truthy_str (wss_url (config b)))
  then raise (ValueError "WSS URL is required")
  else
    let url := default "None" (wss_url (config b)) in
    emit (Log INFO ("Connecting to remote browser via WSS " +:+ url)) ;;;
    h <- connect url ;;
    assign_drission (Some h) ;;;
    ret h.

(** The loop [for _ in range(10)]: [true] is the [break]. *)
Fixpoint poll (n : nat) : M unit :=
  match n with
  | O => ret ()
  | S n' =>
      found <- try_except
                 (status <- probe ;; ret (status =? 200))
                 isinstance_ConnectionError
                 (λ _, ret false) ;;
      if found : bool then ret ()
      else emit (Sleep 1) ;;; poll n'
  end.

(** In the first [try], [Some h] stands for [return self.drission] and
    [None] for leaving the statement by its end. *)
Definition _setup_browser_with_instance : M Handle :=
  b <- get_self ;;
  if negb (truthy_str (chrome_instance_path (config b)))
  then raise (ValueError "Chrome instance path is required")
  else
    let path := default "None" (chrome_instance_path (config b)) in
    reused <- try_except
                (status <- probe ;;
                 if status =? 200
                 then
                   emit (Log INFO "Reusing existing Chrome instance") ;;;
                   h <- connect debug_url ;;
                   assign_drission (Some h) ;;;
                   ret (Some h)
                 else ret None)
                isinstance_ConnectionError
                (λ _,
                   emit (Log DEBUG "No existing Chrome instance found, starting a new one") ;;;
                   ret None) ;;
    match reused with
    | Some h => ret h
    | None =>
        spawn ([path; "--remote-debugging-port=9222"]
                 ++ extra_chromium_args (config b)) ;;;
        poll 10 ;;;
        try_except
          (h <- connect debug_url ;;
           assign_drission (Some h) ;;;
           ret h)
          (λ _, true)
          (λ e,
             emit (Log ERROR ("Failed to start a new Chrome instance.: " +:+ str e)) ;;;
             raise (RuntimeError conflict_message))
    end.

(** The part of [_setup_standard_browser] that fills [options]: the
    options as they stand when the part ends, and the exception that ended
    it, if any (the subscript [proxy["server"]] on a dictionary without
    that key). *)
Definition standard_options (b : Browser) : ChromeOptions * option exn :=
  let options := ChromeOptions_new in
  let options :=
    if headless (config b) then add_argument options "--headless" else options in
  let options :=
    fold_left add_argument
      (standard_args ++ disable_security_args b ++ extra_chromium_args (config b))
      options in
  if truthy_dict (proxy (config b))
  then
    match default ∅ (proxy (config b)) !! "server" with
    | Some server => (add_argument options ("--proxy-server=" +:+ server), None)
    | None => (options, Some (KeyError "server"))
    end
  else (options, None).

Definition _setup_standard_browser : M Handle :=
  b <- get_self ;;
  match standard_options b with
  | (_, Some e) => raise e
  | (options, None) =>
      h <- launch options ;;
      assign_drission (Some h) ;;;
      ret h
  end.

(** The [except Exception as e] clause of [_setup_browser]: log, then
    [raise] the same exception again. *)
Definition logged {A} (body : M A) : M A :=
  try_except body
    (λ _, true)
    (λ e,
       emit (Log ERROR ("Failed to initialize DrissionPage browser: " +:+ str e)) ;;;
       raise e).

Definition _setup_browser : M Handle :=
  logged
    (b <- get_self ;;
     if truthy_str (cdp_url (config b)) then _setup_cdp
     else if truthy_str (wss_url (config b)) then _setup_wss
     else if truthy_str (chrome_instance_path (config b))
          then _setup_browser_with_instance
     else _setup_standard_browser).

Definition close : M unit :=
  try_finally
    (try_except
       (b <- get_self ;;
        if negb (_force_keep_browser_alive (config b))
        then
          match drission b with
          | Some h =>
              call (PageClose h) (λ t, page_close env t h) ;;;
              assign_drission None
          | None => ret ()
          end
        else ret ())
       (λ _, true)
       (λ e, emit (Log DEBUG ("Failed to close browser properly: " +:+ str e))))
    (assign_drission None ;;; emit GcCollect).

End Methods.

(** ** Reading a trace *)

Definition is_Get (e : event) : bool :=
  match e with Get _ _ => true | _ => false end.

Definition is_Popen (e : event) : bool :=
  match e with Popen _ _ _ => true | _ => false end.

Definition is_Sleep (e : event) : bool :=
  match e with Sleep _ => true | _ => false end.

Definition is_Connect (e : event) : bool :=
  match e with Connect _ => true | _ => false end.

Definition is_Launch (e : event) : bool :=
  match e with Launch _ => true | _ => false end.

(** The calls of one kind among [t], in order. *)
Definition calls (kind : event → bool) (t : list event) : list event :=
  List.filter kind t.

(** A probe that did not find a browser and that the code recovers from:
    a response whose status is not 200, or an exception that
    [except requests.ConnectionError] catches. *)
Definition probe_missed (o : outcome Z) : bool :=
  match o with
  | Return status => negb (status =? 200)
  | Raise e => isinstance_ConnectionError e
  end.


(** One round of the polling loop, as the trace shows it. *)
Definition poll_round : list event := [Get probe_url 2; Sleep 1].

Fixpoint poll_rounds (n : nat) : list event :=
  match n with
  | O => []
  | S n' => poll_round ++ poll_rounds n'
  end.

(** The spawn of [_setup_browser_with_instance]. *)
Definition spawn_of (b : Browser) (path : string) : event :=
  Popen ([path; "--remote-debugging-port=9222"] ++ extra_chromium_args (config b))
    DEVNULL DEVNULL.

(** What the first [try] of [_setup_browser_with_instance] leaves in the
    trace when its probe, made after [t], misses. *)
Definition after_missed_probe (env : Env) (t : list event) : list event :=
  Get probe_url 2 ::
  match requests_get env t probe_url with
  | Raise _ => [Log DEBUG "No existing Chrome instance found, starting a new one"]
  | Return _ => []
  end.

(** The state of a run: result, object and trace after a method call. *)
Definition result {A} (r : outcome A * World) : outcome A := r.1.
Definition object {A} (r : outcome A * World) : Browser := self r.2.
Definition events {A} (r : outcome A * World) : list event := trace r.2.

(** ** Concrete configurations and environments *)

Definition config_default : BrowserConfig :=
  {| headless := false;
     disable_security := true;
     extra_chromium_args := [];
     chrome_instance_path := None;
     wss_url := None;
     cdp_url := None;
     proxy := None;
     new_context_config := BrowserContextConfig_default;
     _force_keep_browser_alive := false |}.

Definition config_chrome : BrowserConfig :=
  {| headless := false;
     disable_security := true;
     extra_chromium_args := ["--lang=en"];
     chrome_instance_path := Some "/usr/bin/google-chrome";
     wss_url := None;
     cdp_url := None;
     proxy := None;
     new_context_config := BrowserContextConfig_default;
     _force_keep_browser_alive := false |}.

Definition config_cdp : BrowserConfig :=
  {| headless := true;
     disable_security := false;
     extra_chromium_args := [];
     chrome_instance_path := Some "/usr/bin/google-chrome";
     wss_url := Some "ws://remote:3000";
     cdp_url := Some "http://remote:9222";
     proxy := Some {[ "server" := "http://proxy:8080" ]};
     new_context_config := BrowserContextConfig_default;
     _force_keep_browser_alive := false |}.

Definition config_keep_alive : BrowserConfig :=
  {| headless := true;
     disable_security := false;
     extra_chromium_args := [];
     chrome_instance_path := None;
     wss_url := None;
     cdp_url := None;
     proxy := None;
     new_context_config := BrowserContextConfig_default;
     _force_keep_browser_alive := true |}.

(** The object [Browser(cfg)] right after construction. *)
Definition new_Browser (cfg : BrowserConfig) : Browser :=
  self (Browser__init__ cfg []).

Definition start (b : Browser) : World := {| self := b; trace := [] |}.

(** Nothing listens on the debugging port, and nothing ever will. *)
Definition env_nothing_listens : Env :=
  {| requests_get := λ _ _, Raise (requests_ConnectionError "Connection refused");
     subprocess_Popen := λ _ _, None;
     DrissionPage_url := λ _ _, Raise (LibraryError "cannot connect");
     DrissionPage_options := λ _ _, Return 1%nat;
     page_close := λ _ _, Return () |}.


(** A browser answers the probe with 200 and can be attached to. *)
Definition env_browser_running : Env :=
  {| requests_get := λ _ _, Return 200;
     subprocess_Popen := λ _ _, None;
     DrissionPage_url := λ _ _, Return 7%nat;
     DrissionPage_options := λ _ _, Return 1%nat;
     page_close := λ _ _, Return () |}.

(** A browser answers the probe with 200, but the attach is refused. *)
Definition env_probe_ok_attach_fails : Env :=
  {| requests_get := λ _ _, Return 200;
     subprocess_Popen := λ _ _, None;
     DrissionPage_url := λ _ _, Raise (LibraryError "cannot connect");
     DrissionPage_options := λ _ _, Return 1%nat;
     page_close := λ _ _, Return () |}.

(** The attach raises what the probe's [except] clause is written for. *)
Definition env_probe_ok_attach_refused : Env :=
  {| requests_get := λ _ _, Return 200;
     subprocess_Popen := λ _ _, None;
     DrissionPage_url := λ _ _, Raise (requests_ConnectionError "Connection refused");
     DrissionPage_options := λ _ _, Return 1%nat;
     page_close := λ _ _, Return () |}.

(** Something accepts the connection on the port and then stays silent. *)
Definition env_probe_read_timeout : Env :=
  {| requests_get := λ _ _, Raise (requests_ReadTimeout "Read timed out. (read timeout=2)");
     subprocess_Popen := λ _ _, None;
     DrissionPage_url := λ _ _, Return 7%nat;
     DrissionPage_options := λ _ _, Return 1%nat;
     page_close := λ _ _, Return () |}.

(** Closing the page fails. *)
Definition env_close_fails : Env :=
  {| requests_get := λ _ _, Return 200;
     subprocess_Popen := λ _ _, None;
     DrissionPage_url := λ _ _, Return 7%nat;
     DrissionPage_options := λ _ _, Return 1%nat;
     page_close := λ _ _, Raise (LibraryError "process already gone") |}.

(** ** Mode selection, in the words of the specification *)

Inductive Mode : Type :=
  | AttachByCDP
  | AttachByWSS
  | ReuseOrLaunch
  | StandardLaunch.

(** An endpoint or path is configured when it is given and not empty. *)
Definition spec_configured (o : option string) : bool :=
  match o with
  | Some s => bool_decide (s ≠ "")
  | None => false
  end.

(** The rules, in priority order. *)
Definition spec_mode_rules (cfg : BrowserConfig) : list (bool * Mode) :=
  [ (spec_configured (cdp_url cfg), AttachByCDP);
    (spec_configured (wss_url cfg), AttachByWSS);
    (spec_configured (chrome_instance_path cfg), ReuseOrLaunch) ].

(** The first rule that matches wins; with none, a fresh standard launch. *)
Definition spec_select_mode (cfg : BrowserConfig) : Mode :=
  match List.filter fst (spec_mode_rules cfg) with
  | (_, mode) :: _ => mode
  | [] => StandardLaunch
  end.

(** The procedure of each mode, from the source. *)
Definition mode_procedure (env : Env) (mode : Mode) : M Handle :=
  match mode with
  | AttachByCDP => _setup_cdp env
  | AttachByWSS => _setup_wss env
  | ReuseOrLaunch => _setup_browser_with_instance env
  | StandardLaunch => _setup_standard_browser env
  end.

(** The argument list of [_init], as a function of the three settings it
    reads. *)
Definition init_arguments (headless_flag : bool) (extra security : list string)
    : list string :=
  (if headless_flag then ["--headless"] else []) ++ extra ++ security.

(** The worlds after each of [n] calls of [close] in succession, with the
    result of each call. *)
Fixpoint close_repeatedly (env : Env) (n : nat) (w : World)
    : list (outcome unit * World) :=
  match n with
  | O => []
  | S n' => let r := close env w in r :: close_repeatedly env n' r.2
  end.

(** ** Further readings of a trace *)

Definition is_PageClose (e : event) : bool :=
  match e with PageClose _ => true | _ => false end.

Definition is_error_log (e : event) : bool :=
  match e with Log ERROR _ => true | _ => false end.

(** The line the [except] clause of [_setup_browser] logs for [e]. *)
Definition setup_error_log (e : exn) : event :=
  Log ERROR ("Failed to initialize DrissionPage browser: " +:+ str e).

(** [_setup_browser_with_instance] from its [subprocess.Popen] on (lines
    144-173), for the object [b] read at its start and the path [path]. *)
Definition spawn_poll_attach (env : Env) (b : Browser) (path : string) : M Handle :=
  spawn env ([path; "--remote-debugging-port=9222"]
               ++ extra_chromium_args (config b)) ;;;
  poll env 10 ;;;
  try_except
    (h <- connect env debug_url ;;
     assign_drission (Some h) ;;;
     ret h)
    (λ _, true)
    (λ e,
       emit (Log ERROR ("Failed to start a new Chrome instance.: " +:+ str e)) ;;;
       raise (RuntimeError conflict_message)).

(** The three arguments [Browser.__init__] stores when [disable_security]
    is set. *)
Definition security_flags : list string :=
  ["--disable-web-security";
   "--disable-site-isolation-trials";
   "--disable-features=IsolateOrigins,site-per-process"].

(** ** Further configurations and environments *)

Definition config_wss : BrowserConfig :=
  {| headless := false;
     disable_security := true;
     extra_chromium_args := [];
     chrome_instance_path := Some "/usr/bin/google-chrome";
     wss_url := Some "ws://remote:3000";
     cdp_url := Some "";
     proxy := None;
     new_context_config := BrowserContextConfig_default;
     _force_keep_browser_alive := false |}.

Definition config_proxy : BrowserConfig :=
  {| headless := true;
     disable_security := false;
     extra_chromium_args := ["--lang=en"];
     chrome_instance_path := None;
     wss_url := None;
     cdp_url := None;
     proxy := Some {[ "server" := "http://proxy:8080" ]};
     new_context_config := BrowserContextConfig_default;
     _force_keep_browser_alive := false |}.

Definition config_proxy_without_server : BrowserConfig :=
  {| headless := false;
     disable_security := false;
     extra_chromium_args := [];
     chrome_instance_path := None;
     wss_url := None;
     cdp_url := None;
     proxy := Some {[ "username" := "me" ]};
     new_context_config := BrowserContextConfig_default;
     _force_keep_browser_alive := false |}.

(** The spawned browser answers from the fourth probe on. *)
Definition env_ready_at_fourth_probe : Env :=
  {| requests_get := λ t _,
       if (length (calls is_Get t) <? 3)%nat
       then Raise (requests_ConnectionError "Connection refused")
       else Return 200;
     subprocess_Popen := λ _ _, None;
     DrissionPage_url := λ _ _, Return 7%nat;
     DrissionPage_options := λ _ _, Return 1%nat;
     page_close := λ _ _, Return () |}.

(** The first three probes are refused; from the fourth on the spawned
    process accepts the connection without answering. *)
Definition env_spawned_process_hangs : Env :=
  {| requests_get := λ t _,
       if (length (calls is_Get t) <? 3)%nat
       then Raise (requests_ConnectionError "Connection refused")
       else Raise (requests_ReadTimeout "Read timed out. (read timeout=2)");
     subprocess_Popen := λ _ _, None;
     DrissionPage_url := λ _ _, Return 7%nat;
     DrissionPage_options := λ _ _, Return 1%nat;
     page_close := λ _ _, Return () |}.

(** The launch fails. *)
Definition env_launch_fails : Env :=
  {| requests_get := λ _ _, Return 200;
     subprocess_Popen := λ _ _, None;
     DrissionPage_url := λ _ _, Return 7%nat;
     DrissionPage_options := λ _ _, Raise (LibraryError "no browser found");
     page_close := λ _ _, Return () |}.

(** The trace of reuse-or-launch up to and including the spawn, when the
    first probe, made after [t], missed. *)
Definition after_spawn (env : Env) (b : Browser) (t : list event) (path : string)
    : list event :=
  t ++ after_missed_probe env t ++ [spawn_of b path].

(** How many calls of one kind [t] holds. *)
Definition count (kind : event → bool) (t : list event) : nat :=
  length (calls kind t).

(** Bounds on the probes, sleeps, attaches, spawns and launches in [new]. *)
Definition at_most (gets sleeps connects popens launches : nat)
    (new : list event) : Prop :=
  (count is_Get new ≤ gets)%nat
  ∧ (count is_Sleep new ≤ sleeps)%nat
  ∧ (count is_Connect new ≤ connects)%nat
  ∧ (count is_Popen new ≤ popens)%nat
  ∧ (count is_Launch new ≤ launches)%nat.

(** What a setup method leaves behind, started on the object [b] after the
    trace [t], when [new] is what it adds to the trace: the handle it returns
    is the one it stored, with no error logged; when it raises, the object
    is as it was. *)
Definition setup_outcome (b : Browser) (t new : list event)
    (r : outcome Handle * World) : Prop :=
  events r = t ++ new
  ∧ match result r with
    | Return h => object r = set_drission b (Some h) ∧ count is_error_log new = 0%nat
    | Raise _ => object r = b
    end.

(** What [close] adds to the trace before its [gc.collect()], on the object
    [b] after the trace [t]. *)
Definition close_calls (env : Env) (b : Browser) (t : list event) : list event :=
  if _force_keep_browser_alive (config b) then []
  else
    match drission b with
    | Some h =>
        PageClose h ::
        match page_close env t h with
        | Return _ => []
        | Raise e => [Log DEBUG ("Failed to close browser properly: " +:+ str e)]
        end
    | None => []
    end.

(** The arguments of the standard launch before the proxy is looked at. *)
Definition standard_base (b : Browser) : list string :=
  (if headless (config b) then ["--headless"] else [])
  ++ standard_args ++ disable_security_args b ++ extra_chromium_args (config b).

(** The remote endpoint [_setup_browser] attaches to, with the name its log
    line gives it: the CDP endpoint if there is one, else the WSS endpoint
    if there is one. *)
Definition remote_endpoint (cfg : BrowserConfig) : option (string * string) :=
  if truthy_str (cdp_url cfg) then Some ("CDP", default "None" (cdp_url cfg))
  else if truthy_str (wss_url cfg) then Some ("WSS", default "None" (wss_url cfg))
  else None.

(** The argument vector of the spawn. *)
Definition spawn_argv (b : Browser) (path : string) : list string :=
  [path; "--remote-debugging-port=9222"] ++ extra_chromium_args (config b).

(** Nothing listens on the port, and the configured program does not
    exist. *)
Definition env_chrome_missing : Env :=
  {| requests_get := λ _ _, Raise (requests_ConnectionError "Connection refused");
     subprocess_Popen := λ _ _,
       Some (cannot_execute "[Errno 2] No such file or directory: '/usr/bin/google-chrome'");
     DrissionPage_url := λ _ _, Raise (LibraryError "cannot connect");
     DrissionPage_options := λ _ _, Return 1%nat;
     page_close := λ _ _, Return () |}.

(** The calls to the outside that are not log lines, and the first of them. *)
Definition is_outside_call (e : event) : bool :=
  match e with Log _ _ => false | _ => true end.

Definition first_call (new : list event) : option event :=
  head (calls is_outside_call new).

(** ** Auxiliary facts *)

Lemma fold_left_add_argument (args : list string) (options : ChromeOptions) :
  fold_left add_argument args options = options ++ args.
Proof.
  revert options.
  induction args as [|a args IH]; intros options; simpl.
  - by rewrite app_nil_r.
  - rewrite IH. unfold add_argument. by rewrite <- app_assoc.
Qed.

Lemma truthy_str_intro (s : string) : s ≠ "" → truthy_str (Some s) = true.
Proof.
  intros H. simpl. destruct (String.eqb_spec s ""); [done|done].
Qed.

Section Polling.

Variable env : Env.


(** The loop stops at the first probe answered with 200, without sleeping
    after it. *)
Lemma poll_found_at_once (n : nat) (w : World) :
  requests_get env (trace w) probe_url = Return 200 →
  poll env (S n) w = (Return (), {| self := self w; trace := trace w ++ [Get probe_url 2] |}).
Proof.
  intros H. destruct w as [b t]. simpl in *.
  unfold bind, try_except, probe, call, ret. simpl. by rewrite H.
Qed.

End Polling.

(** ** Reuse-or-launch *)

Ltac unfold_monad :=
  unfold logged, bind, ret, raise, try_except, try_finally, get_self,
    assign_drission, emit, call, probe, connect, launch, spawn.

Section ReuseOrLaunch.

Variable env : Env.
Variable b : Browser.
Variable t : list event.
Variable path : string.

Hypothesis no_cdp : truthy_str (cdp_url (config b)) = false.
Hypothesis no_wss : truthy_str (wss_url (config b)) = false.
Hypothesis has_path : chrome_instance_path (config b) = Some path.
Hypothesis path_not_empty : path ≠ "".

(** In this configuration [_setup_browser] is [_setup_browser_with_instance]
    under the logging clause. *)
Lemma reuse_or_launch_dispatch :
  _setup_browser env {| self := b; trace := t |}
  = logged (_setup_browser_with_instance env) {| self := b; trace := t |}.
Proof.
  unfold _setup_browser, logged, try_except, bind at 1, get_self. simpl.
  rewrite no_cdp, no_wss, has_path, (truthy_str_intro _ path_not_empty).
  done.
Qed.


End ReuseOrLaunch.




(** C2, as amended.  Reuse-or-launch: when the first probe is answered with
    200 and the attach to the debugging endpoint succeeds, [_setup_browser]
    returns the attached handle, keeps it in [drission], and has called
    nothing but that probe, the log and the attach: no process is spawned. *)
Theorem reuse_or_launch_attaches_to_running
    (env : Env) (b : Browser) (t : list event) (path : string) (h : Handle) :
  truthy_str (cdp_url (config b)) = false →
  truthy_str (wss_url (config b)) = false →
  chrome_instance_path (config b) = Some path →
  path ≠ "" →
  requests_get env t probe_url = Return 200 →
  DrissionPage_url env
    (t ++ [Get probe_url 2; Log INFO "Reusing existing Chrome instance"]) debug_url
  = Return h →
  _setup_browser env {| self := b; trace := t |}
  = (Return h,
     {| self := set_drission b (Some h);
        trace := t ++ [Get probe_url 2;
                       Log INFO "Reusing existing Chrome instance";
                       Connect debug_url] |}).
Proof.
  intros Hcdp Hwss Hpath Hne Hprobe Hattach.
  rewrite (reuse_or_launch_dispatch env b t path Hcdp Hwss Hpath Hne).
  unfold _setup_browser_with_instance. unfold_monad. cbn -[poll].
  rewrite Hpath, (truthy_str_intro _ Hne). cbn -[poll].
  rewrite Hprobe. cbn -[poll].
  rewrite <- !app_assoc. cbn -[poll].
  rewrite Hattach. cbn -[poll].
  done.
Qed.

Lemma reuse_or_launch_attaches_to_running_witness :
  requests_get env_browser_running [] probe_url = Return 200
  ∧ _setup_browser env_browser_running
      {| self := new_Browser config_chrome; trace := [] |}
    = (Return 7%nat,
       {| self := set_drission (new_Browser config_chrome) (Some 7%nat);
          trace := [] ++ [Get probe_url 2;
                          Log INFO "Reusing existing Chrome instance";
                          Connect debug_url] |}).
Proof.
  split; [reflexivity|].
  apply (reuse_or_launch_attaches_to_running env_browser_running
           (new_Browser config_chrome) [] "/usr/bin/google-chrome" 7%nat).
  - reflexivity.
  - reflexivity.
  - reflexivity.
  - discriminate.
  - reflexivity.
  - reflexivity.
Defined.

(** C2, as stated, fails: the first probe is answered with 200, but the
    attach is refused, and [_setup_browser] raises the attach's error instead
    of returning a handle; [drission] stays [None]. *)
Lemma reuse_or_launch_attaches_to_running_counterexample :
  requests_get env_probe_ok_attach_fails [] probe_url = Return 200
  ∧ result (_setup_browser env_probe_ok_attach_fails (start (new_Browser config_chrome)))
    = Raise (LibraryError "cannot connect")
  ∧ drission (object (_setup_browser env_probe_ok_attach_fails
                         (start (new_Browser config_chrome))))
    = None.
Proof. split; [reflexivity|]. split; vm_compute; reflexivity. Qed.

(** X3.  Reuse-or-launch: when the first probe is answered with 200 and the
    attach fails with an error that is not a [requests.ConnectionError], the
    error goes to the caller, logged and unchanged, and nothing is
    spawned. *)
Lemma reuse_or_launch_attach_error_propagates
    (env : Env) (b : Browser) (t : list event) (path : string) (e : exn) :
  truthy_str (cdp_url (config b)) = false →
  truthy_str (wss_url (config b)) = false →
  chrome_instance_path (config b) = Some path →
  path ≠ "" →
  requests_get env t probe_url = Return 200 →
  DrissionPage_url env
    (t ++ [Get probe_url 2; Log INFO "Reusing existing Chrome instance"]) debug_url
  = Raise e →
  isinstance_ConnectionError e = false →
  _setup_browser env {| self := b; trace := t |}
  = (Raise e,
     {| self := b;
        trace := t ++ [Get probe_url 2;
                       Log INFO "Reusing existing Chrome instance";
                       Connect debug_url;
                       Log ERROR ("Failed to initialize DrissionPage browser: " +:+ str e)] |}).
Proof.
  intros Hcdp Hwss Hpath Hne Hprobe Hattach Hkind.
  rewrite (reuse_or_launch_dispatch env b t path Hcdp Hwss Hpath Hne).
  unfold _setup_browser_with_instance. unfold_monad. cbn -[poll].
  rewrite Hpath, (truthy_str_intro _ Hne). cbn -[poll].
  rewrite Hprobe. cbn -[poll].
  rewrite <- !app_assoc. cbn -[poll].
  rewrite Hattach. cbn -[poll].
  rewrite Hkind. cbn -[poll].
  rewrite <- !app_assoc. done.
Qed.

(** The first [try] also covers the attach: an attach that raises a
    [requests.ConnectionError] is taken for a missed probe, and a process is
    spawned although the probe had found a browser. *)
Example reuse_or_launch_attach_refused_spawns :
  requests_get env_probe_ok_attach_refused [] probe_url = Return 200
  ∧ calls is_Popen
      (events (_setup_browser env_probe_ok_attach_refused
                 (start (new_Browser config_chrome))))
    = [spawn_of (new_Browser config_chrome) "/usr/bin/google-chrome"].
Proof. split; [reflexivity|]. vm_compute. reflexivity. Qed.

(** ** The probe's [except] clause *)


(** C6, at the input on which the code departs from it.  Reuse-or-launch:
    when the first probe ends in a [requests.ReadTimeout], which is not a
    [requests.ConnectionError], the [except] clause does not apply: the
    timeout leaves [_setup_browser] as its error, and nothing is spawned. *)
Theorem reuse_or_launch_read_timeout_propagates
    (env : Env) (b : Browser) (t : list event) (path msg : string) :
  truthy_str (cdp_url (config b)) = false →
  truthy_str (wss_url (config b)) = false →
  chrome_instance_path (config b) = Some path →
  path ≠ "" →
  requests_get env t probe_url = Raise (requests_ReadTimeout msg) →
  _setup_browser env {| self := b; trace := t |}
  = (Raise (requests_ReadTimeout msg),
     {| self := b;
        trace := t ++ [Get probe_url 2;
                       Log ERROR ("Failed to initialize DrissionPage browser: " +:+ msg)] |}).
Proof.
  intros Hcdp Hwss Hpath Hne Hprobe.
  rewrite (reuse_or_launch_dispatch env b t path Hcdp Hwss Hpath Hne).
  unfold _setup_browser_with_instance. unfold_monad. cbn -[poll].
  rewrite Hpath, (truthy_str_intro _ Hne). cbn -[poll].
  rewrite Hprobe. cbn -[poll].
  rewrite <- !app_assoc. done.
Qed.

Lemma reuse_or_launch_read_timeout_propagates_witness :
  requests_get env_probe_read_timeout [] probe_url
  = Raise (requests_ReadTimeout "Read timed out. (read timeout=2)")
  ∧ _setup_browser env_probe_read_timeout
      {| self := new_Browser config_chrome; trace := [] |}
    = (Raise (requests_ReadTimeout "Read timed out. (read timeout=2)"),
       {| self := new_Browser config_chrome;
          trace := [] ++ [Get probe_url 2;
                          Log ERROR ("Failed to initialize DrissionPage browser: "
                                     +:+ "Read timed out. (read timeout=2)")] |}).
Proof.
  split; [reflexivity|].
  apply (reuse_or_launch_read_timeout_propagates env_probe_read_timeout
           (new_Browser config_chrome) [] "/usr/bin/google-chrome").
  - reflexivity.
  - reflexivity.
  - reflexivity.
  - discriminate.
  - reflexivity.
Defined.

(** ** Attach by CDP *)

(** X22.  With a CDP endpoint configured, [_setup_browser] calls
    [DrissionPage(url=...)] exactly once, on that endpoint, and never probes
    the local debugging port; nor does it spawn or launch anything.  This
    holds whether the connect succeeds or raises. *)
Theorem cdp_one_connect_no_probe
    (env : Env) (b : Browser) (t : list event) (url : string) :
  cdp_url (config b) = Some url →
  url ≠ "" →
  ∃ new,
    events (_setup_browser env {| self := b; trace := t |}) = t ++ new
    ∧ calls is_Connect new = [Connect url]
    ∧ calls is_Get new = []
    ∧ calls is_Popen new = []
    ∧ calls is_Launch new = [].
Proof.
  intros Hcdp Hne.
  unfold _setup_browser, _setup_cdp, events. unfold_monad. simpl.
  rewrite Hcdp, (truthy_str_intro _ Hne). simpl.
  rewrite Hcdp, (truthy_str_intro _ Hne). simpl.
  match goal with |- context [DrissionPage_url env ?hist url] =>
    destruct (DrissionPage_url env hist url) as [h1|e] end; simpl.
  - exists [Log INFO ("Connecting to remote browser via CDP " +:+ url); Connect url].
    rewrite <- !app_assoc. done.
  - exists [Log INFO ("Connecting to remote browser via CDP " +:+ url); Connect url;
            Log ERROR ("Failed to initialize DrissionPage browser: " +:+ str e)].
    rewrite <- !app_assoc. done.
Qed.

Lemma cdp_one_connect_no_probe_witness :
  cdp_url (config (new_Browser config_cdp)) = Some "http://remote:9222"
  ∧ ∃ new,
      events (_setup_browser env_nothing_listens
                {| self := new_Browser config_cdp; trace := [] |}) = [] ++ new
      ∧ calls is_Connect new = [Connect "http://remote:9222"]
      ∧ calls is_Get new = []
      ∧ calls is_Popen new = []
      ∧ calls is_Launch new = [].
Proof.
  split; [reflexivity|].
  apply (cdp_one_connect_no_probe env_nothing_listens (new_Browser config_cdp) []
           "http://remote:9222").
  - reflexivity.
  - discriminate.
Defined.

(** ** The public entry point *)

(** C4.  On a [Browser] that holds a handle, [get_drission_browser] returns
    that very handle and does nothing else: the object is unchanged and the
    trace gains no call. *)
Theorem get_drission_browser_idempotent
    (env : Env) (b : Browser) (t : list event) (h : Handle) :
  drission b = Some h →
  get_drission_browser env {| self := b; trace := t |}
  = (Return h, {| self := b; trace := t |}).
Proof.
  intros H. unfold get_drission_browser. unfold_monad. simpl. by rewrite H.
Qed.

Lemma get_drission_browser_idempotent_witness :
  drission (set_drission (new_Browser config_cdp) (Some 5%nat)) = Some 5%nat
  ∧ get_drission_browser env_nothing_listens
      {| self := set_drission (new_Browser config_cdp) (Some 5%nat);
         trace := [Launch ["--headless"]] |}
    = (Return 5%nat,
       {| self := set_drission (new_Browser config_cdp) (Some 5%nat);
          trace := [Launch ["--headless"]] |}).
Proof.
  split; [reflexivity|].
  apply (get_drission_browser_idempotent env_nothing_listens
           (set_drission (new_Browser config_cdp) (Some 5%nat))
           [Launch ["--headless"]] 5%nat).
  reflexivity.
Defined.

(** ** Mode selection *)

Lemma spec_configured_truthy (o : option string) :
  spec_configured o = truthy_str o.
Proof.
  destruct o as [s|]; simpl; [|done].
  destruct (String.eqb_spec s "") as [->|Hne]; simpl.
  - done.
  - by apply bool_decide_eq_true.
Qed.

(** [_setup_browser] runs the procedure of the mode that the priority
    rules select (CDP, else WSS, else a fixed executable path, else the
    standard launch; the first configured one wins) under its logging
    clause. *)
Lemma setup_browser_selects_mode (env : Env) (w : World) :
  _setup_browser env w
  = logged (mode_procedure env (spec_select_mode (config (self w)))) w.
Proof.
  unfold _setup_browser, logged, try_except, bind at 1, get_self.
  unfold spec_select_mode, spec_mode_rules. simpl.
  rewrite !spec_configured_truthy.
  destruct (truthy_str (cdp_url (config (self w))));
    destruct (truthy_str (wss_url (config (self w))));
    destruct (truthy_str (chrome_instance_path (config (self w))));
    reflexivity.
Qed.

(** The four rows of the selection, read off [spec_select_mode]. *)
Lemma spec_select_mode_rows (cfg : BrowserConfig) :
  spec_select_mode cfg =
    if spec_configured (cdp_url cfg) then AttachByCDP
    else if spec_configured (wss_url cfg) then AttachByWSS
    else if spec_configured (chrome_instance_path cfg) then ReuseOrLaunch
    else StandardLaunch.
Proof.
  unfold spec_select_mode, spec_mode_rules. simpl.
  destruct (spec_configured (cdp_url cfg));
    destruct (spec_configured (wss_url cfg));
    destruct (spec_configured (chrome_instance_path cfg)); reflexivity.
Qed.

(** With all three configured, CDP wins. *)
Example setup_browser_prefers_cdp :
  spec_select_mode config_cdp = AttachByCDP
  ∧ events (_setup_browser env_browser_running (start (new_Browser config_cdp)))
    = [Log INFO "Connecting to remote browser via CDP http://remote:9222";
       Connect "http://remote:9222"].
Proof. split; vm_compute; reflexivity. Qed.

(** ** Teardown *)

(** One call of [close]: it returns, and [drission] is [None] afterwards,
    whatever the state and whatever the page's own [close] does. *)
Lemma close_returns_and_clears (env : Env) (w : World) :
  result (close env w) = Return () ∧ drission (object (close env w)) = None.
Proof.
  destruct w as [b t]. unfold close, result, object. unfold_monad. simpl.
  destruct (_force_keep_browser_alive (config b)); simpl; [done|].
  destruct (drission b) as [h|]; simpl; [|done].
  destruct (page_close env t h) as [u|e]; simpl; done.
Qed.

(** C7.  [close] called any number of times in succession, twice in
    particular: every call returns without raising and leaves [drission]
    at [None], also when the page's own [close] raises. *)
Theorem close_never_raises (env : Env) (w : World) (n : nat) :
  Forall (λ r, result r = Return () ∧ drission (object r) = None)
    (close_repeatedly env n w)
  ∧ result (close env w) = Return ()
  ∧ drission (object (close env w)) = None
  ∧ result (close env (close env w).2) = Return ()
  ∧ drission (object (close env (close env w).2)) = None.
Proof.
  split.
  - revert w. induction n as [|n IH]; intros w; simpl.
    + constructor.
    + constructor; [apply close_returns_and_clears | apply IH].
  - pose proof (close_returns_and_clears env w) as [H1 H2].
    pose proof (close_returns_and_clears env (close env w).2) as [H3 H4].
    done.
Qed.

(** A failing termination, twice over: the first call logs the failure, the
    second finds nothing to terminate. *)
Example close_twice_when_termination_fails :
  events (close env_close_fails
            (close env_close_fails
               {| self := set_drission (new_Browser config_default) (Some 3%nat);
                  trace := [] |}).2)
  = [PageClose 3%nat;
     Log DEBUG "Failed to close browser properly: process already gone";
     GcCollect;
     GcCollect].
Proof. vm_compute. reflexivity. Qed.

(** C8.  With the keep-alive flag set, [close] sets [drission] to [None],
    calls [gc.collect()] and nothing else: the page's [close] is not called,
    and the configuration and the security arguments stay as they were. *)
Theorem close_keep_alive (env : Env) (b : Browser) (t : list event) :
  _force_keep_browser_alive (config b) = true →
  close env {| self := b; trace := t |}
  = (Return (),
     {| self := {| config := config b;
                   drission := None;
                   disable_security_args := disable_security_args b |};
        trace := t ++ [GcCollect] |}).
Proof.
  intros H. unfold close. unfold_monad. simpl. rewrite H. simpl. done.
Qed.

Lemma close_keep_alive_witness :
  _force_keep_browser_alive
    (config (set_drission (new_Browser config_keep_alive) (Some 3%nat))) = true
  ∧ close env_close_fails
      {| self := set_drission (new_Browser config_keep_alive) (Some 3%nat);
         trace := [] |}
    = (Return (),
       {| self := {| config := config_keep_alive;
                     drission := None;
                     disable_security_args := [] |};
          trace := [] ++ [GcCollect] |}).
Proof.
  split; [reflexivity|].
  apply (close_keep_alive env_close_fails
           (set_drission (new_Browser config_keep_alive) (Some 3%nat)) []).
  reflexivity.
Defined.

(** ** The launch of the public entry point *)

(** The options [_init] builds. *)
Lemma init_options (b : Browser) :
  (let options := ChromeOptions_new in
   let options :=
     if headless (config b) then add_argument options "--headless" else options in
   let options :=
     if truthy_list (extra_chromium_args (config b))
     then fold_left add_argument (extra_chromium_args (config b)) options
     else options in
   if truthy_list (disable_security_args b)
   then fold_left add_argument (disable_security_args b) options
   else options)
  = init_arguments (headless (config b)) (extra_chromium_args (config b))
      (disable_security_args b).
Proof.
  unfold init_arguments, ChromeOptions_new, add_argument. simpl.
  rewrite !fold_left_add_argument.
  destruct (headless (config b));
    destruct (extra_chromium_args (config b)) as [|x xs];
    destruct (disable_security_args b) as [|y ys]; simpl;
    rewrite ?app_nil_r, <- ?app_assoc; done.
Qed.

(** C9.  On a [Browser] without a handle, [get_drission_browser] makes one
    call, the launch of [_init], with the headless flag, the extra arguments
    and the security arguments, in this order; it returns and keeps the
    handle the launch gives, or raises what the launch raises.  The CDP and
    WSS endpoints, the executable path and the proxy are not read: two
    objects that differ in nothing else get the same result and trace. *)
Theorem get_drission_browser_fresh_launch
    (env : Env) (b : Browser) (t : list event) :
  drission b = None →
  let arguments :=
    init_arguments (headless (config b)) (extra_chromium_args (config b))
      (disable_security_args b) in
  get_drission_browser env {| self := b; trace := t |}
  = match DrissionPage_options env t arguments with
    | Return h =>
        (Return h, {| self := set_drission b (Some h); trace := t ++ [Launch arguments] |})
    | Raise e =>
        (Raise e, {| self := b; trace := t ++ [Launch arguments] |})
    end
  ∧ ∀ b' : Browser,
      drission b' = None →
      headless (config b') = headless (config b) →
      extra_chromium_args (config b') = extra_chromium_args (config b) →
      disable_security_args b' = disable_security_args b →
      result (get_drission_browser env {| self := b'; trace := t |})
      = result (get_drission_browser env {| self := b; trace := t |})
      ∧ events (get_drission_browser env {| self := b'; trace := t |})
        = events (get_drission_browser env {| self := b; trace := t |}).
Proof.
  intros Hnone arguments.
  assert (Hrun : ∀ b0 : Browser, drission b0 = None →
    get_drission_browser env {| self := b0; trace := t |}
    = match DrissionPage_options env t
              (init_arguments (headless (config b0)) (extra_chromium_args (config b0))
                 (disable_security_args b0)) with
      | Return h =>
          (Return h,
           {| self := set_drission b0 (Some h);
              trace := t ++ [Launch (init_arguments (headless (config b0))
                                       (extra_chromium_args (config b0))
                                       (disable_security_args b0))] |})
      | Raise e =>
          (Raise e,
           {| self := b0;
              trace := t ++ [Launch (init_arguments (headless (config b0))
                                       (extra_chromium_args (config b0))
                                       (disable_security_args b0))] |})
      end).
  { intros b0 H0.
    unfold get_drission_browser, bind at 1, get_self. simpl. rewrite H0.
    unfold _init, bind at 1, get_self. simpl.
    pose proof (init_options b0) as Hopt. simpl in Hopt. rewrite Hopt.
    unfold_monad. simpl.
    destruct (DrissionPage_options env t _); done. }
  split; [by apply Hrun|].
  intros b' Hnone' Hh He Hs.
  rewrite (Hrun b Hnone), (Hrun b' Hnone'), Hh, He, Hs.
  unfold result, events.
  destruct (DrissionPage_options env t _); done.
Qed.

Lemma get_drission_browser_fresh_launch_witness :
  drission (new_Browser config_cdp) = None
  ∧ get_drission_browser env_browser_running
      {| self := new_Browser config_cdp; trace := [] |}
    = (Return 1%nat,
       {| self := set_drission (new_Browser config_cdp) (Some 1%nat);
          trace := [Launch ["--headless"]] |})
  ∧ events (get_drission_browser env_browser_running
              {| self := new_Browser config_keep_alive; trace := [] |})
    = events (get_drission_browser env_browser_running
                {| self := new_Browser config_cdp; trace := [] |}).
Proof.
  split; [reflexivity|].
  destruct (get_drission_browser_fresh_launch env_browser_running
              (new_Browser config_cdp) [] eq_refl) as [Hrun Hsame].
  split; [exact Hrun|].
  destruct (Hsame (new_Browser config_keep_alive) eq_refl eq_refl eq_refl eq_refl)
    as [_ Hevents].
  exact Hevents.
Defined.

(** ** The standard launch *)

(** C10.  The options [_setup_standard_browser] builds contain
    [--no-sandbox] for every object, whatever [disable_security] was; they
    are the arguments of its launch.  (The launch is not reached only when
    the proxy dictionary has no ["server"] key: the subscript raises.) *)
Theorem standard_launch_no_sandbox (env : Env) (b : Browser) (t : list event) :
  "--no-sandbox" ∈ (standard_options b).1
  ∧ match (standard_options b).2 with
    | None =>
        events (_setup_standard_browser env {| self := b; trace := t |})
        = t ++ [Launch (standard_options b).1]
    | Some e =>
        _setup_standard_browser env {| self := b; trace := t |}
        = (Raise e, {| self := b; trace := t |})
    end.
Proof.
  split.
  - unfold standard_options, ChromeOptions_new, add_argument.
    rewrite fold_left_add_argument.
    assert (Hin : "--no-sandbox" ∈
              (if headless (config b) then [] ++ ["--headless"] else []) ++
              standard_args ++ disable_security_args b
              ++ extra_chromium_args (config b)).
    { apply elem_of_app. right. apply elem_of_app. left.
      unfold standard_args. apply list_elem_of_here. }
    destruct (truthy_dict (proxy (config b))); [|exact Hin].
    destruct (default ∅ (proxy (config b)) !! "server"); simpl; [|exact Hin].
    apply elem_of_app. by left.
  - unfold _setup_standard_browser, events. unfold_monad. simpl.
    destruct (standard_options b) as [options [e|]]; simpl; [done|].
    destruct (DrissionPage_options env t options); done.
Qed.

(** With [disable_security] off and nothing else configured, the launch is
    made of the thirteen standard arguments, [--no-sandbox] first. *)
Example standard_launch_security_on :
  events (_setup_browser env_browser_running
            (start (new_Browser
                      {| headless := false;
                         disable_security := false;
                         extra_chromium_args := [];
                         chrome_instance_path := None;
                         wss_url := None;
                         cdp_url := None;
                         proxy := None;
                         new_context_config := BrowserContextConfig_default;
                         _force_keep_browser_alive := false |})))
  = [Launch standard_args].
Proof. vm_compute. reflexivity. Qed.

(** * Further properties of the module *)

(** ** The polling loop *)

Lemma poll_rounds_S (k : nat) (t : list event) :
  t ++ poll_rounds (S k) = ((t ++ [Get probe_url 2]) ++ [Sleep 1]) ++ poll_rounds k.
Proof. simpl. by rewrite <- !app_assoc. Qed.

(** The loop after [k] missed probes, [k] below its bound: a probe answered
    with 200 ends it at once, without a sleep. *)
Lemma poll_ready_after (env : Env) (k n : nat) (w : World) :
  (k < n)%nat →
  (∀ j, (j < k)%nat →
        probe_missed (requests_get env (trace w ++ poll_rounds j) probe_url) = true) →
  requests_get env (trace w ++ poll_rounds k) probe_url = Return 200 →
  poll env n w
  = (Return (), {| self := self w; trace := trace w ++ poll_rounds k ++ [Get probe_url 2] |}).
Proof.
  revert n w. induction k as [|k IH]; intros n [b t] Hlt Hmiss Hready;
    (destruct n as [|n]; [lia|]); simpl in *.
  - rewrite app_nil_r in Hready.
    unfold_monad. simpl. by rewrite Hready.
  - pose proof (Hmiss 0%nat ltac:(lia)) as H0. simpl in H0. rewrite app_nil_r in H0.
    unfold bind at 1, try_except, bind at 1, probe, call, ret. simpl.
    assert (Hnext : poll env n {| self := b; trace := (t ++ [Get probe_url 2]) ++ [Sleep 1] |}
                    = (Return (),
                       {| self := b;
                          trace := ((t ++ [Get probe_url 2]) ++ [Sleep 1])
                                   ++ poll_rounds k ++ [Get probe_url 2] |})).
    { apply (IH n {| self := b; trace := (t ++ [Get probe_url 2]) ++ [Sleep 1] |}).
      - lia.
      - intros j Hj. simpl. rewrite <- poll_rounds_S. apply Hmiss. lia.
      - simpl. rewrite <- poll_rounds_S. exact Hready. }
    destruct (requests_get env t probe_url) as [status|e]; simpl in *.
    + apply negb_true_iff in H0. rewrite H0.
      unfold bind, emit. simpl. rewrite Hnext. by rewrite <- !app_assoc.
    + rewrite H0. unfold bind, emit. simpl. rewrite Hnext. by rewrite <- !app_assoc.
Qed.

(** The same, for a probe that raises what the loop does not catch: the
    exception ends the loop. *)
Lemma poll_error_after (env : Env) (k n : nat) (w : World) (e : exn) :
  (k < n)%nat →
  (∀ j, (j < k)%nat →
        probe_missed (requests_get env (trace w ++ poll_rounds j) probe_url) = true) →
  requests_get env (trace w ++ poll_rounds k) probe_url = Raise e →
  isinstance_ConnectionError e = false →
  poll env n w
  = (Raise e, {| self := self w; trace := trace w ++ poll_rounds k ++ [Get probe_url 2] |}).
Proof.
  revert n w. induction k as [|k IH]; intros n [b t] Hlt Hmiss Herr Hkind;
    (destruct n as [|n]; [lia|]); simpl in *.
  - rewrite app_nil_r in Herr.
    unfold_monad. simpl. by rewrite Herr, Hkind.
  - pose proof (Hmiss 0%nat ltac:(lia)) as H0. simpl in H0. rewrite app_nil_r in H0.
    unfold bind at 1, try_except, bind at 1, probe, call, ret. simpl.
    assert (Hnext : poll env n {| self := b; trace := (t ++ [Get probe_url 2]) ++ [Sleep 1] |}
                    = (Raise e,
                       {| self := b;
                          trace := ((t ++ [Get probe_url 2]) ++ [Sleep 1])
                                   ++ poll_rounds k ++ [Get probe_url 2] |})).
    { apply (IH n {| self := b; trace := (t ++ [Get probe_url 2]) ++ [Sleep 1] |}).
      - lia.
      - intros j Hj. simpl. rewrite <- poll_rounds_S. apply Hmiss. lia.
      - simpl. rewrite <- poll_rounds_S. exact Herr.
      - exact Hkind. }
    destruct (requests_get env t probe_url) as [status|e0]; simpl in *.
    + apply negb_true_iff in H0. rewrite H0.
      unfold bind, emit. simpl. rewrite Hnext. by rewrite <- !app_assoc.
    + rewrite H0. unfold bind, emit. simpl. rewrite Hnext. by rewrite <- !app_assoc.
Qed.

(** ** Reuse-or-launch, step by step *)

(** [_setup_browser_with_instance] by the answer to its first probe. *)
Lemma setup_with_instance_by_first_probe
    (env : Env) (b : Browser) (t : list event) (path : string) :
  chrome_instance_path (config b) = Some path →
  path ≠ "" →
  _setup_browser_with_instance env {| self := b; trace := t |}
  = match requests_get env t probe_url with
    | Return status =>
        if status =? 200
        then
          match DrissionPage_url env
                  (t ++ [Get probe_url 2; Log INFO "Reusing existing Chrome instance"])
                  debug_url with
          | Return h =>
              (Return h,
               {| self := set_drission b (Some h);
                  trace := t ++ [Get probe_url 2;
                                 Log INFO "Reusing existing Chrome instance";
                                 Connect debug_url] |})
          | Raise e =>
              if isinstance_ConnectionError e
              then spawn_poll_attach env b path
                     {| self := b;
                        trace := t ++ [Get probe_url 2;
                                       Log INFO "Reusing existing Chrome instance";
                                       Connect debug_url;
                                       Log DEBUG "No existing Chrome instance found, starting a new one"] |}
              else (Raise e,
                    {| self := b;
                       trace := t ++ [Get probe_url 2;
                                      Log INFO "Reusing existing Chrome instance";
                                      Connect debug_url] |})
          end
        else spawn_poll_attach env b path {| self := b; trace := t ++ [Get probe_url 2] |}
    | Raise e =>
        if isinstance_ConnectionError e
        then spawn_poll_attach env b path
               {| self := b;
                  trace := t ++ [Get probe_url 2;
                                 Log DEBUG "No existing Chrome instance found, starting a new one"] |}
        else (Raise e, {| self := b; trace := t ++ [Get probe_url 2] |})
    end.
Proof.
  intros Hpath Hne.
  unfold _setup_browser_with_instance, spawn_poll_attach.
  unfold bind at 1, get_self. cbn -[poll].
  rewrite Hpath, (truthy_str_intro _ Hne). cbn -[poll].
  unfold bind at 1, try_except at 1, bind at 1, probe, call. cbn -[poll].
  destruct (requests_get env t probe_url) as [status|e]; cbn -[poll].
  - destruct (status =? 200); cbn -[poll]; [|done].
    unfold_monad. cbn -[poll].
    rewrite <- !app_assoc. cbn -[poll].
    destruct (DrissionPage_url env _ debug_url) as [h|e]; cbn -[poll]; [done|].
    destruct (isinstance_ConnectionError e); cbn -[poll]; [|done].
    rewrite <- !app_assoc. done.
  - destruct (isinstance_ConnectionError e); cbn -[poll]; [|done].
    unfold_monad. cbn -[poll]. rewrite <- !app_assoc. done.
Qed.

(** [spawn_poll_attach] by the answer to its spawn, the result of its polling
    loop and the answer to its attach. *)
Lemma spawn_poll_attach_run (env : Env) (b : Browser) (path : string) (w : World) :
  spawn_poll_attach env b path w
  = match subprocess_Popen env (trace w) (spawn_argv b path) with
    | Some f =>
        (Raise (spawn_exn f),
         {| self := self w; trace := trace w ++ [spawn_of b path] |})
    | None =>
        match poll env 10 {| self := self w; trace := trace w ++ [spawn_of b path] |} with
        | (Return _, w') =>
            match DrissionPage_url env (trace w') debug_url with
            | Return h =>
                (Return h,
                 {| self := set_drission (self w') (Some h);
                    trace := trace w' ++ [Connect debug_url] |})
            | Raise e =>
                (Raise (RuntimeError conflict_message),
                 {| self := self w';
                    trace := trace w' ++
                             [Connect debug_url;
                              Log ERROR ("Failed to start a new Chrome instance.: "
                                         +:+ str e)] |})
            end
        | (Raise e, w') => (Raise e, w')
        end
    end.
Proof.
  unfold spawn_poll_attach, spawn_of, spawn_argv. unfold_monad. cbn -[poll].
  destruct (subprocess_Popen env (trace w) _) as [f|]; cbn -[poll]; [done|].
  destruct (poll env 10 _) as [[u|e] w']; cbn -[poll]; [|done].
  destruct (DrissionPage_url env (trace w') debug_url) as [h|e]; cbn -[poll]; [done|].
  by rewrite <- !app_assoc.
Qed.

(** The world in which [spawn_poll_attach] starts once the first probe has
    missed, and the trace right after its spawn. *)
Lemma missed_probe_then_spawn
    (env : Env) (b : Browser) (t : list event) (path : string) :
  chrome_instance_path (config b) = Some path →
  path ≠ "" →
  probe_missed (requests_get env t probe_url) = true →
  _setup_browser_with_instance env {| self := b; trace := t |}
  = spawn_poll_attach env b path
      {| self := b; trace := t ++ after_missed_probe env t |}.
Proof.
  intros Hpath Hne Hmiss.
  rewrite (setup_with_instance_by_first_probe env b t path Hpath Hne).
  unfold after_missed_probe.
  destruct (requests_get env t probe_url) as [status|e]; simpl in *.
  - apply negb_true_iff in Hmiss. by rewrite Hmiss.
  - by rewrite Hmiss.
Qed.

(** X4.  Reuse-or-launch: the spawn starts the process, the spawned browser
    answers the probe with 200 after [k] missed polls, [k] below ten, and the
    attach succeeds.  Then the
    polling stops at that probe, without a further sleep, and
    [_setup_browser] returns the attached handle: one spawn, [k + 1] probes
    and [k] sleeps after it, one attach. *)
Theorem reuse_or_launch_ready_after_polls
    (env : Env) (b : Browser) (t : list event) (path : string) (k : nat)
    (h : Handle) :
  truthy_str (cdp_url (config b)) = false →
  truthy_str (wss_url (config b)) = false →
  chrome_instance_path (config b) = Some path →
  path ≠ "" →
  probe_missed (requests_get env t probe_url) = true →
  subprocess_Popen env (t ++ after_missed_probe env t) (spawn_argv b path) = None →
  (k < 10)%nat →
  (∀ j, (j < k)%nat →
        probe_missed
          (requests_get env (after_spawn env b t path ++ poll_rounds j) probe_url)
        = true) →
  requests_get env (after_spawn env b t path ++ poll_rounds k) probe_url = Return 200 →
  DrissionPage_url env
    (after_spawn env b t path ++ poll_rounds k ++ [Get probe_url 2]) debug_url
  = Return h →
  _setup_browser env {| self := b; trace := t |}
  = (Return h,
     {| self := set_drission b (Some h);
        trace := after_spawn env b t path ++ poll_rounds k
                 ++ [Get probe_url 2; Connect debug_url] |}).
Proof.
  intros Hcdp Hwss Hpath Hne Hmiss Hspawn Hk Hpolls Hready Hattach.
  rewrite (reuse_or_launch_dispatch env b t path Hcdp Hwss Hpath Hne).
  unfold logged, try_except.
  rewrite (missed_probe_then_spawn env b t path Hpath Hne Hmiss).
  rewrite spawn_poll_attach_run. cbn [self trace]. rewrite Hspawn.
  cbn -[poll poll_rounds].
  unfold after_spawn in *.
  rewrite (poll_ready_after env k 10
             {| self := b; trace := (t ++ after_missed_probe env t) ++ [spawn_of b path] |} Hk).
  - cbn -[poll_rounds]. rewrite <- !app_assoc in *. rewrite Hattach.
    unfold after_missed_probe. cbn -[poll_rounds]. by rewrite <- ?app_assoc.
  - intros j Hj. specialize (Hpolls j Hj). cbn [trace self].
    rewrite <- !app_assoc in *. exact Hpolls.
  - cbn [trace self]. rewrite <- !app_assoc in *. exact Hready.
Qed.

Lemma reuse_or_launch_ready_after_polls_witness :
  probe_missed (requests_get env_ready_at_fourth_probe [] probe_url) = true
  ∧ subprocess_Popen env_ready_at_fourth_probe
      ([] ++ after_missed_probe env_ready_at_fourth_probe [])
      (spawn_argv (new_Browser config_chrome) "/usr/bin/google-chrome") = None
  ∧ requests_get env_ready_at_fourth_probe
      (after_spawn env_ready_at_fourth_probe (new_Browser config_chrome) []
         "/usr/bin/google-chrome" ++ poll_rounds 2) probe_url
    = Return 200
  ∧ _setup_browser env_ready_at_fourth_probe
      {| self := new_Browser config_chrome; trace := [] |}
    = (Return 7%nat,
       {| self := set_drission (new_Browser config_chrome) (Some 7%nat);
          trace := after_spawn env_ready_at_fourth_probe (new_Browser config_chrome) []
                     "/usr/bin/google-chrome"
                   ++ poll_rounds 2 ++ [Get probe_url 2; Connect debug_url] |}).
Proof.
  split; [reflexivity|]. split; [reflexivity|]. split; [reflexivity|].
  apply (reuse_or_launch_ready_after_polls env_ready_at_fourth_probe
           (new_Browser config_chrome) [] "/usr/bin/google-chrome" 2 7%nat).
  - reflexivity.
  - reflexivity.
  - reflexivity.
  - discriminate.
  - reflexivity.
  - reflexivity.
  - lia.
  - intros j Hj. destruct j as [|[|j]]; [reflexivity|reflexivity|lia].
  - reflexivity.
  - reflexivity.
Defined.

(** X5.  Reuse-or-launch: the spawn starts the process, and after [k] missed
    polls, [k] below ten, a probe raises what [except requests.ConnectionError]
    does not catch (a read timeout, say).  The exception ends the polling and leaves [_setup_browser]; the
    attach is not attempted, and [drission] is not set although a process
    was spawned. *)
Theorem reuse_or_launch_poll_error_propagates
    (env : Env) (b : Browser) (t : list event) (path : string) (k : nat)
    (e : exn) :
  truthy_str (cdp_url (config b)) = false →
  truthy_str (wss_url (config b)) = false →
  chrome_instance_path (config b) = Some path →
  path ≠ "" →
  probe_missed (requests_get env t probe_url) = true →
  subprocess_Popen env (t ++ after_missed_probe env t) (spawn_argv b path) = None →
  (k < 10)%nat →
  (∀ j, (j < k)%nat →
        probe_missed
          (requests_get env (after_spawn env b t path ++ poll_rounds j) probe_url)
        = true) →
  requests_get env (after_spawn env b t path ++ poll_rounds k) probe_url = Raise e →
  isinstance_ConnectionError e = false →
  _setup_browser env {| self := b; trace := t |}
  = (Raise e,
     {| self := b;
        trace := after_spawn env b t path ++ poll_rounds k
                 ++ [Get probe_url 2; setup_error_log e] |}).
Proof.
  intros Hcdp Hwss Hpath Hne Hmiss Hspawn Hk Hpolls Herr Hkind.
  rewrite (reuse_or_launch_dispatch env b t path Hcdp Hwss Hpath Hne).
  unfold logged, try_except.
  rewrite (missed_probe_then_spawn env b t path Hpath Hne Hmiss).
  rewrite spawn_poll_attach_run. cbn [self trace]. rewrite Hspawn.
  cbn -[poll poll_rounds].
  unfold after_spawn in *.
  rewrite (poll_error_after env k 10
             {| self := b; trace := (t ++ after_missed_probe env t) ++ [spawn_of b path] |}
             e Hk).
  - unfold_monad. cbn -[poll_rounds]. unfold setup_error_log, after_missed_probe.
    cbn -[poll_rounds]. rewrite <- ?app_assoc. simpl. rewrite <- ?app_assoc. done.
  - intros j Hj. specialize (Hpolls j Hj). cbn [trace self].
    rewrite <- !app_assoc in *. exact Hpolls.
  - cbn [trace self]. rewrite <- !app_assoc in *. exact Herr.
  - exact Hkind.
Qed.

Lemma reuse_or_launch_poll_error_propagates_witness :
  probe_missed (requests_get env_spawned_process_hangs [] probe_url) = true
  ∧ subprocess_Popen env_spawned_process_hangs
      ([] ++ after_missed_probe env_spawned_process_hangs [])
      (spawn_argv (new_Browser config_chrome) "/usr/bin/google-chrome") = None
  ∧ requests_get env_spawned_process_hangs
      (after_spawn env_spawned_process_hangs (new_Browser config_chrome) []
         "/usr/bin/google-chrome" ++ poll_rounds 2) probe_url
    = Raise (requests_ReadTimeout "Read timed out. (read timeout=2)")
  ∧ _setup_browser env_spawned_process_hangs
      {| self := new_Browser config_chrome; trace := [] |}
    = (Raise (requests_ReadTimeout "Read timed out. (read timeout=2)"),
       {| self := new_Browser config_chrome;
          trace := after_spawn env_spawned_process_hangs (new_Browser config_chrome) []
                     "/usr/bin/google-chrome"
                   ++ poll_rounds 2
                   ++ [Get probe_url 2;
                       setup_error_log
                         (requests_ReadTimeout "Read timed out. (read timeout=2)")] |}).
Proof.
  split; [reflexivity|]. split; [reflexivity|]. split; [reflexivity|].
  apply (reuse_or_launch_poll_error_propagates env_spawned_process_hangs
           (new_Browser config_chrome) [] "/usr/bin/google-chrome" 2).
  - reflexivity.
  - reflexivity.
  - reflexivity.
  - discriminate.
  - reflexivity.
  - reflexivity.
  - lia.
  - intros j Hj. destruct j as [|[|j]]; [reflexivity|reflexivity|lia].
  - reflexivity.
  - reflexivity.
Defined.

(** ** What no environment can make the setup do *)

Lemma count_app (kind : event → bool) (t1 t2 : list event) :
  count kind (t1 ++ t2) = (count kind t1 + count kind t2)%nat.
Proof. unfold count, calls. by rewrite List.filter_app, length_app. Qed.

Ltac count_calls :=
  unfold at_most in *; rewrite ?count_app in *;
  unfold count, calls in *; simpl in *; repeat split; lia.

(** The polling loop, whatever the probes answer: at most [n] probes and [n]
    sleeps, nothing else; the object is left alone; and an exception that
    leaves the loop is not a [requests.ConnectionError]. *)
Lemma poll_bounded (env : Env) (n : nat) (w : World) :
  ∃ post,
    (poll env n w).2 = {| self := self w; trace := trace w ++ post |}
    ∧ at_most n n 0 0 0 post
    ∧ count is_error_log post = 0%nat
    ∧ match (poll env n w).1 with
      | Return _ => True
      | Raise e => isinstance_ConnectionError e = false
      end.
Proof.
  revert w. induction n as [|n IH]; intros [b t]; simpl.
  - exists []. unfold ret. simpl. rewrite app_nil_r.
    repeat split; unfold count; simpl; lia.
  - unfold_monad. simpl.
    destruct (IH {| self := b; trace := (t ++ [Get probe_url 2]) ++ [Sleep 1] |})
      as (post & Hpost & Hmost & Hlog & Hexn).
    (destruct (requests_get env t probe_url) as [status|e]; simpl;
     [destruct (status =? 200); simpl
     |destruct (isinstance_ConnectionError e) eqn:Hkind; simpl]);
      (destruct (poll env n {| self := b; trace := (t ++ [Get probe_url 2]) ++ [Sleep 1] |})
         as [[u|e'] w']; simpl in *; subst w');
      first
        [ exists [Get probe_url 2]; simpl;
          split; [reflexivity|]; repeat split; unfold count; simpl; solve [lia|done]
        | exists ([Get probe_url 2; Sleep 1] ++ post); simpl;
          split; [by rewrite <- !app_assoc|];
          split; [count_calls|]; split; [|done];
          unfold count, calls in *; simpl in *; lia ].
Qed.

Lemma spawn_exn_not_ConnectionError (f : spawn_failure) :
  isinstance_ConnectionError (spawn_exn f) = false.
Proof. by destruct f. Qed.

(** [spawn_poll_attach], whatever the environment answers: the spawn comes
    first and is the only one. *)
Lemma spawn_poll_attach_bounded
    (env : Env) (b : Browser) (path : string) (w : World) :
  ∃ post,
    events (spawn_poll_attach env b path w) = trace w ++ spawn_of b path :: post
    ∧ at_most 10 10 1 0 0 post
    ∧ match result (spawn_poll_attach env b path w) with
      | Return h =>
          object (spawn_poll_attach env b path w) = set_drission (self w) (Some h)
          ∧ count is_error_log post = 0%nat
      | Raise e =>
          object (spawn_poll_attach env b path w) = self w
          ∧ isinstance_ConnectionError e = false
      end.
Proof.
  rewrite spawn_poll_attach_run. unfold events, result, object.
  destruct (subprocess_Popen env (trace w) _) as [f|]; cbn -[poll].
  { exists []. split; [done|]. split; [count_calls|].
    split; [done|]. apply spawn_exn_not_ConnectionError. }
  destruct (poll_bounded env 10 {| self := self w; trace := trace w ++ [spawn_of b path] |})
    as (post & Hpost & Hmost & Hlog & Hexn).
  destruct (poll env 10 _) as [[u|e] w']; simpl in *; subst w'; simpl.
  - match goal with |- context [DrissionPage_url env ?hist debug_url] =>
      destruct (DrissionPage_url env hist debug_url) as [h|e]
    end; simpl.
    + exists (post ++ [Connect debug_url]).
      split; [by rewrite <- !app_assoc|]. split; [count_calls|].
      split; [done|]. rewrite !count_app. unfold count in *. simpl. lia.
    + exists (post
              ++ [Connect debug_url;
                  Log ERROR ("Failed to start a new Chrome instance.: " +:+ str e)]).
      split; [by rewrite <- !app_assoc|]. split; [count_calls|]. done.
  - exists post.
    split; [by rewrite <- !app_assoc|]. split; [count_calls|]. done.
Qed.

(** [_setup_browser_with_instance], whatever the environment answers and
    whatever the configuration. *)
Lemma setup_with_instance_bounded (env : Env) (b : Browser) (t : list event) :
  ∃ new,
    events (_setup_browser_with_instance env {| self := b; trace := t |}) = t ++ new
    ∧ at_most 11 10 2 1 0 new
    ∧ match result (_setup_browser_with_instance env {| self := b; trace := t |}) with
      | Return h =>
          object (_setup_browser_with_instance env {| self := b; trace := t |})
          = set_drission b (Some h)
          ∧ count is_error_log new = 0%nat
      | Raise e =>
          object (_setup_browser_with_instance env {| self := b; trace := t |}) = b
          ∧ isinstance_ConnectionError e = false
      end.
Proof.
  destruct (truthy_str (chrome_instance_path (config b))) eqn:Htruthy.
  - destruct (chrome_instance_path (config b)) as [path|] eqn:Hpath; [|done].
    assert (Hne : path ≠ "").
    { intros ->. by simpl in Htruthy. }
    rewrite (setup_with_instance_by_first_probe env b t path Hpath Hne).
    assert (Htail : ∀ pre : list event,
      at_most 1 0 1 0 0 pre → count is_error_log pre = 0%nat →
      ∃ new,
        events (spawn_poll_attach env b path {| self := b; trace := t ++ pre |}) = t ++ new
        ∧ at_most 11 10 2 1 0 new
        ∧ match result (spawn_poll_attach env b path {| self := b; trace := t ++ pre |}) with
          | Return h =>
              object (spawn_poll_attach env b path {| self := b; trace := t ++ pre |})
              = set_drission b (Some h)
              ∧ count is_error_log new = 0%nat
          | Raise e =>
              object (spawn_poll_attach env b path {| self := b; trace := t ++ pre |}) = b
              ∧ isinstance_ConnectionError e = false
          end).
    { intros pre Hpre Hprelog.
      destruct (spawn_poll_attach_bounded env b path {| self := b; trace := t ++ pre |})
        as (post & Hev & Hmost & Hres).
      exists (pre ++ spawn_of b path :: post). simpl in *.
      split; [by rewrite Hev, <- app_assoc|].
      split; [change (spawn_of b path :: post) with ([spawn_of b path] ++ post);
              count_calls|].
      destruct (result _) as [h|e]; [|exact Hres].
      destruct Hres as [Hobj Hlog]. split; [exact Hobj|].
      change (spawn_of b path :: post) with ([spawn_of b path] ++ post).
      rewrite !count_app. unfold count at 2. simpl. lia. }
    destruct (requests_get env t probe_url) as [status|e].
    + destruct (status =? 200).
      * destruct (DrissionPage_url env _ debug_url) as [h|e].
        -- exists [Get probe_url 2; Log INFO "Reusing existing Chrome instance";
                   Connect debug_url].
           unfold events, result, object. simpl.
           repeat split; unfold count; simpl; lia.
        -- destruct (isinstance_ConnectionError e) eqn:Hkind.
           ++ apply Htail; [|done]. repeat split; unfold count; simpl; lia.
           ++ exists [Get probe_url 2; Log INFO "Reusing existing Chrome instance";
                      Connect debug_url].
              unfold events, result, object. simpl.
              repeat split; unfold count; simpl; try lia. exact Hkind.
      * apply (Htail [Get probe_url 2]); [|done].
        repeat split; unfold count; simpl; lia.
    + destruct (isinstance_ConnectionError e) eqn:Hkind.
      * apply Htail; [|done]. repeat split; unfold count; simpl; lia.
      * exists [Get probe_url 2].
        unfold events, result, object. simpl.
        repeat split; unfold count; simpl; try lia. exact Hkind.
  - exists []. unfold _setup_browser_with_instance, events, result, object.
    unfold_monad. simpl. rewrite Htruthy. simpl. rewrite app_nil_r.
    repeat split; unfold count; simpl; lia.
Qed.

(** The [except] clause of [_setup_browser] adds at most its log line. *)
Lemma logged_events {A} (body : M A) (w : World) :
  ∃ tail,
    events (logged body w) = events (body w) ++ tail
    ∧ calls is_Popen tail = []
    ∧ calls is_outside_call tail = [].
Proof.
  unfold logged, events. unfold_monad.
  destruct (body w) as [[a|e] w']; simpl.
  - exists []. by rewrite app_nil_r.
  - by exists [Log ERROR ("Failed to initialize DrissionPage browser: " +:+ str e)].
Qed.

Lemma no_Popen_of_at_most (g s c l : nat) (post : list event) :
  at_most g s c 0 l post → calls is_Popen post = [].
Proof.
  intros (_ & _ & _ & H & _). unfold count in H.
  apply length_zero_iff_nil. lia.
Qed.

(** X2.  Reuse-or-launch: when the first probe misses in a way the [except]
    clause covers (a [requests.ConnectionError], which a refused connection
    and a connect timeout are, or a status other than 200), the next call is
    the spawn: the configured path, the debugging-port argument, the extra
    arguments, both streams on [DEVNULL]; and it is the only spawn. *)
Lemma reuse_or_launch_missed_probe_spawns
    (env : Env) (b : Browser) (t : list event) (path : string) :
  truthy_str (cdp_url (config b)) = false →
  truthy_str (wss_url (config b)) = false →
  chrome_instance_path (config b) = Some path →
  path ≠ "" →
  probe_missed (requests_get env t probe_url) = true →
  ∃ post,
    events (_setup_browser env {| self := b; trace := t |})
    = t ++ after_missed_probe env t
        ++ [Popen ([path; "--remote-debugging-port=9222"]
                     ++ extra_chromium_args (config b)) DEVNULL DEVNULL]
        ++ post
    ∧ calls is_Popen post = [].
Proof.
  intros Hcdp Hwss Hpath Hne Hmiss.
  destruct (logged_events (_setup_browser_with_instance env) {| self := b; trace := t |})
    as (tail & Hlog & Htail & _).
  rewrite (reuse_or_launch_dispatch env b t path Hcdp Hwss Hpath Hne), Hlog.
  rewrite (missed_probe_then_spawn env b t path Hpath Hne Hmiss).
  destruct (spawn_poll_attach_bounded env b path
              {| self := b; trace := t ++ after_missed_probe env t |})
    as (post & Hev & Hmost & _).
  rewrite Hev. cbn [trace]. exists (post ++ tail).
  split.
  - unfold spawn_of. rewrite <- !app_assoc. reflexivity.
  - pose proof (no_Popen_of_at_most _ _ _ _ _ Hmost) as HP.
    unfold calls in *. by rewrite List.filter_app, Htail, HP.
Qed.

Lemma reuse_or_launch_missed_probe_spawns_witness :
  probe_missed (requests_get env_nothing_listens [] probe_url) = true
  ∧ ∃ post,
      events (_setup_browser env_nothing_listens
                {| self := new_Browser config_chrome; trace := [] |})
      = [] ++ after_missed_probe env_nothing_listens []
          ++ [Popen (["/usr/bin/google-chrome"; "--remote-debugging-port=9222"]
                       ++ extra_chromium_args (config (new_Browser config_chrome)))
                DEVNULL DEVNULL]
          ++ post
      ∧ calls is_Popen post = [].
Proof.
  split; [reflexivity|].
  apply (reuse_or_launch_missed_probe_spawns env_nothing_listens
           (new_Browser config_chrome) [] "/usr/bin/google-chrome").
  - reflexivity.
  - reflexivity.
  - reflexivity.
  - discriminate.
  - reflexivity.
Defined.

Lemma at_most_weaken (g s c p l g' s' c' p' l' : nat) (new : list event) :
  at_most g s c p l new →
  (g ≤ g')%nat → (s ≤ s')%nat → (c ≤ c')%nat → (p ≤ p')%nat → (l ≤ l')%nat →
  at_most g' s' c' p' l' new.
Proof. unfold at_most. intros (?&?&?&?&?) ? ? ? ? ?. repeat split; lia. Qed.

Lemma setup_cdp_outcome (env : Env) (b : Browser) (t : list event) :
  ∃ new,
    setup_outcome b t new (_setup_cdp env {| self := b; trace := t |})
    ∧ at_most 0 0 1 0 0 new.
Proof.
  unfold setup_outcome, _setup_cdp, events, result, object. unfold_monad. simpl.
  destruct (truthy_str (cdp_url (config b))); simpl.
  - destruct (DrissionPage_url env _ _) as [h|e]; simpl;
      eexists; (split; [split; [rewrite <- app_assoc; reflexivity|]|]);
      simpl; repeat split; unfold count; simpl; lia.
  - exists []. rewrite app_nil_r. repeat split; unfold count; simpl; lia.
Qed.

Lemma setup_wss_outcome (env : Env) (b : Browser) (t : list event) :
  ∃ new,
    setup_outcome b t new (_setup_wss env {| self := b; trace := t |})
    ∧ at_most 0 0 1 0 0 new.
Proof.
  unfold setup_outcome, _setup_wss, events, result, object. unfold_monad. simpl.
  destruct (truthy_str (wss_url (config b))); simpl.
  - destruct (DrissionPage_url env _ _) as [h|e]; simpl;
      eexists; (split; [split; [rewrite <- app_assoc; reflexivity|]|]);
      simpl; repeat split; unfold count; simpl; lia.
  - exists []. rewrite app_nil_r. repeat split; unfold count; simpl; lia.
Qed.

Lemma setup_standard_outcome (env : Env) (b : Browser) (t : list event) :
  ∃ new,
    setup_outcome b t new (_setup_standard_browser env {| self := b; trace := t |})
    ∧ at_most 0 0 0 0 1 new.
Proof.
  unfold setup_outcome, _setup_standard_browser, events, result, object.
  unfold_monad. simpl.
  destruct (standard_options b) as [options [e|]]; simpl.
  - exists []. rewrite app_nil_r. repeat split; unfold count; simpl; lia.
  - destruct (DrissionPage_options env t options) as [h|e]; simpl;
      exists [Launch options]; repeat split; unfold count; simpl; lia.
Qed.

Lemma setup_with_instance_outcome (env : Env) (b : Browser) (t : list event) :
  ∃ new,
    setup_outcome b t new (_setup_browser_with_instance env {| self := b; trace := t |})
    ∧ at_most 11 10 2 1 0 new.
Proof.
  destruct (setup_with_instance_bounded env b t) as (new & Hev & Hmost & Hres).
  exists new. unfold setup_outcome. split; [split; [exact Hev|]|exact Hmost].
  destruct (result _); [exact Hres|]. by destruct Hres.
Qed.

(** The [except] clause of [_setup_browser] over a body with such an
    outcome: the same outcome, and the error line last when it raises. *)
Lemma logged_outcome (body : M Handle) (b : Browser) (t new : list event) :
  setup_outcome b t new (body {| self := b; trace := t |}) →
  ∃ new',
    setup_outcome b t new' (logged body {| self := b; trace := t |})
    ∧ count is_Get new' = count is_Get new
    ∧ count is_Sleep new' = count is_Sleep new
    ∧ count is_Connect new' = count is_Connect new
    ∧ count is_Popen new' = count is_Popen new
    ∧ count is_Launch new' = count is_Launch new
    ∧ match result (logged body {| self := b; trace := t |}) with
      | Return _ => True
      | Raise e => new' = new ++ [setup_error_log e]
      end.
Proof.
  unfold setup_outcome, logged, events, result, object. unfold_monad.
  destruct (body {| self := b; trace := t |}) as [[h|e] [b' t']]; simpl.
  - intros (-> & -> & Hlog). exists new. done.
  - intros (-> & ->). exists (new ++ [setup_error_log e]).
    rewrite <- app_assoc, !count_app. unfold setup_error_log, count. simpl.
    repeat split; lia.
Qed.

(** [_setup_browser], whatever the configuration and the environment. *)
Lemma setup_browser_summary (env : Env) (b : Browser) (t : list event) :
  ∃ new,
    setup_outcome b t new (_setup_browser env {| self := b; trace := t |})
    ∧ at_most 11 10 2 1 1 new
    ∧ match result (_setup_browser env {| self := b; trace := t |}) with
      | Return _ => True
      | Raise e => ∃ pre, new = pre ++ [setup_error_log e]
      end.
Proof.
  assert (Hbody : ∃ new,
    setup_outcome b t new
      ((b0 <- get_self ;;
        if truthy_str (cdp_url (config b0)) then _setup_cdp env
        else if truthy_str (wss_url (config b0)) then _setup_wss env
        else if truthy_str (chrome_instance_path (config b0))
             then _setup_browser_with_instance env
        else _setup_standard_browser env) {| self := b; trace := t |})
    ∧ at_most 11 10 2 1 1 new).
  { unfold bind at 1, get_self. simpl.
    destruct (truthy_str (cdp_url (config b)));
      [|destruct (truthy_str (wss_url (config b)));
        [|destruct (truthy_str (chrome_instance_path (config b)))]].
    - destruct (setup_cdp_outcome env b t) as (new & H & Hmost).
      exists new. split; [done|]. eapply at_most_weaken; [exact Hmost|lia..].
    - destruct (setup_wss_outcome env b t) as (new & H & Hmost).
      exists new. split; [done|]. eapply at_most_weaken; [exact Hmost|lia..].
    - destruct (setup_with_instance_outcome env b t) as (new & H & Hmost).
      exists new. split; [done|]. eapply at_most_weaken; [exact Hmost|lia..].
    - destruct (setup_standard_outcome env b t) as (new & H & Hmost).
      exists new. split; [done|]. eapply at_most_weaken; [exact Hmost|lia..]. }
  destruct Hbody as (new & Hout & Hmost).
  destruct (logged_outcome _ b t new Hout) as (new' & Hout' & Hg & Hs & Hc & Hp & Hl & Hlast).
  exists new'. split; [exact Hout'|]. split.
  - unfold at_most in *. rewrite Hg, Hs, Hc, Hp, Hl. exact Hmost.
  - unfold _setup_browser.
    destruct (result (logged _ _)) as [h|e]; [done|]. by exists new.
Qed.

(** X6.  For every configuration and every environment, one run of
    [_setup_browser] probes the debugging endpoint at most eleven times,
    sleeps at most ten times, attaches at most twice, spawns at most one
    process and launches at most one browser. *)
Theorem setup_browser_call_bounds (env : Env) (b : Browser) (t : list event) :
  ∃ new,
    events (_setup_browser env {| self := b; trace := t |}) = t ++ new
    ∧ (count is_Get new ≤ 11)%nat
    ∧ (count is_Sleep new ≤ 10)%nat
    ∧ (count is_Connect new ≤ 2)%nat
    ∧ (count is_Popen new ≤ 1)%nat
    ∧ (count is_Launch new ≤ 1)%nat.
Proof.
  destruct (setup_browser_summary env b t) as (new & [Hev _] & Hmost & _).
  exists new. split; [exact Hev|]. exact Hmost.
Qed.

(** X7.  For every configuration and every environment: when [_setup_browser]
    returns a handle, that handle is in [drission], the rest of the object is
    as before and no error was logged; when it raises, the object is exactly
    as before, and the last thing it did was to log the exception it
    raises. *)
Theorem setup_browser_outcome (env : Env) (b : Browser) (t : list event) :
  ∃ new,
    events (_setup_browser env {| self := b; trace := t |}) = t ++ new
    ∧ match result (_setup_browser env {| self := b; trace := t |}) with
      | Return h =>
          object (_setup_browser env {| self := b; trace := t |})
          = {| config := config b;
               drission := Some h;
               disable_security_args := disable_security_args b |}
          ∧ calls is_error_log new = []
      | Raise e =>
          object (_setup_browser env {| self := b; trace := t |}) = b
          ∧ ∃ pre, new = pre ++ [setup_error_log e]
      end.
Proof.
  destruct (setup_browser_summary env b t) as (new & [Hev Hres] & _ & Hlast).
  exists new. split; [exact Hev|].
  destruct (result _) as [h|e].
  - destruct Hres as [Hobj Hlog]. split; [exact Hobj|].
    unfold count in Hlog. by apply length_zero_iff_nil.
  - done.
Qed.

(** X8.  [_setup_browser_with_instance] never raises a
    [requests.ConnectionError]: from the probes it is caught, and from the
    final attach it is replaced by the [RuntimeError]. *)
Theorem setup_with_instance_never_raises_ConnectionError
    (env : Env) (w : World) (e : exn) :
  result (_setup_browser_with_instance env w) = Raise e →
  isinstance_ConnectionError e = false.
Proof.
  destruct w as [b t]. intros Hres.
  destruct (setup_with_instance_bounded env b t) as (new & _ & _ & H).
  rewrite Hres in H. by destruct H.
Qed.

Lemma setup_with_instance_never_raises_ConnectionError_witness :
  result (_setup_browser_with_instance env_nothing_listens
            (start (new_Browser config_chrome)))
  = Raise (RuntimeError conflict_message)
  ∧ isinstance_ConnectionError (RuntimeError conflict_message) = false.
Proof.
  split; [vm_compute; reflexivity|].
  apply (setup_with_instance_never_raises_ConnectionError env_nothing_listens
           (start (new_Browser config_chrome)) (RuntimeError conflict_message)).
  vm_compute. reflexivity.
Defined.

(** ** Attach by WSS *)

(** X1.  With a WSS endpoint configured and no CDP endpoint (none, or an empty
    string), [_setup_browser] calls [DrissionPage(url=...)] exactly once, on
    the WSS endpoint, and neither probes, spawns nor launches, also when an
    executable path is configured as well. *)
Theorem wss_one_connect_no_probe
    (env : Env) (b : Browser) (t : list event) (url : string) :
  truthy_str (cdp_url (config b)) = false →
  wss_url (config b) = Some url →
  url ≠ "" →
  ∃ new,
    events (_setup_browser env {| self := b; trace := t |}) = t ++ new
    ∧ calls is_Connect new = [Connect url]
    ∧ calls is_Get new = []
    ∧ calls is_Popen new = []
    ∧ calls is_Launch new = [].
Proof.
  intros Hcdp Hwss Hne.
  unfold _setup_browser, _setup_wss, events. unfold_monad. simpl.
  rewrite Hcdp, Hwss, (truthy_str_intro _ Hne). simpl.
  rewrite Hwss, (truthy_str_intro _ Hne). simpl.
  match goal with |- context [DrissionPage_url env ?hist url] =>
    destruct (DrissionPage_url env hist url) as [h1|e] end; simpl.
  - exists [Log INFO ("Connecting to remote browser via WSS " +:+ url); Connect url].
    rewrite <- !app_assoc. done.
  - exists [Log INFO ("Connecting to remote browser via WSS " +:+ url); Connect url;
            Log ERROR ("Failed to initialize DrissionPage browser: " +:+ str e)].
    rewrite <- !app_assoc. done.
Qed.

Lemma wss_one_connect_no_probe_witness :
  cdp_url (config (new_Browser config_wss)) = Some ""
  ∧ chrome_instance_path (config (new_Browser config_wss)) = Some "/usr/bin/google-chrome"
  ∧ ∃ new,
      events (_setup_browser env_browser_running
                {| self := new_Browser config_wss; trace := [] |}) = [] ++ new
      ∧ calls is_Connect new = [Connect "ws://remote:3000"]
      ∧ calls is_Get new = []
      ∧ calls is_Popen new = []
      ∧ calls is_Launch new = [].
Proof.
  split; [reflexivity|]. split; [reflexivity|].
  apply (wss_one_connect_no_probe env_browser_running (new_Browser config_wss) []
           "ws://remote:3000").
  - reflexivity.
  - reflexivity.
  - discriminate.
Defined.

(** ** Witnesses for two facts about the first [try] *)


Lemma reuse_or_launch_attach_error_propagates_witness :
  requests_get env_probe_ok_attach_fails [] probe_url = Return 200
  ∧ _setup_browser env_probe_ok_attach_fails
      {| self := new_Browser config_chrome; trace := [] |}
    = (Raise (LibraryError "cannot connect"),
       {| self := new_Browser config_chrome;
          trace := [] ++ [Get probe_url 2;
                          Log INFO "Reusing existing Chrome instance";
                          Connect debug_url;
                          Log ERROR ("Failed to initialize DrissionPage browser: "
                                     +:+ str (LibraryError "cannot connect"))] |}).
Proof.
  split; [reflexivity|].
  apply (reuse_or_launch_attach_error_propagates env_probe_ok_attach_fails
           (new_Browser config_chrome) [] "/usr/bin/google-chrome"
           (LibraryError "cannot connect")).
  - reflexivity.
  - reflexivity.
  - reflexivity.
  - discriminate.
  - reflexivity.
  - reflexivity.
  - reflexivity.
Defined.

(** ** Teardown, and what follows it *)

(** [close] in one equation. *)
Lemma close_run (env : Env) (b : Browser) (t : list event) :
  close env {| self := b; trace := t |}
  = (Return (),
     {| self := set_drission b None;
        trace := t ++ close_calls env b t ++ [GcCollect] |}).
Proof.
  unfold close, close_calls. unfold_monad. simpl.
  destruct (_force_keep_browser_alive (config b)); simpl; [done|].
  destruct (drission b) as [h|]; simpl; [|done].
  destruct (page_close env t h) as [u|e]; simpl; by rewrite <- ?app_assoc.
Qed.

(** X9.  Without the keep-alive flag, [close] calls the page's [close] exactly
    once when a handle is held, on that handle and before anything else, and
    not at all when none is held; it ends with [gc.collect()] and with
    [drission] at [None]. *)
Theorem close_terminates_held_page (env : Env) (b : Browser) (t : list event) :
  _force_keep_browser_alive (config b) = false →
  ∃ new,
    close env {| self := b; trace := t |}
    = (Return (), {| self := set_drission b None; trace := t ++ new ++ [GcCollect] |})
    ∧ calls is_PageClose new
      = match drission b with Some h => [PageClose h] | None => [] end
    ∧ head new
      = match drission b with Some h => Some (PageClose h) | None => None end.
Proof.
  intros Hkeep. exists (close_calls env b t).
  split; [apply close_run|].
  unfold close_calls. rewrite Hkeep.
  destruct (drission b) as [h|]; [|done].
  destruct (page_close env t h); done.
Qed.

Lemma close_terminates_held_page_witness :
  _force_keep_browser_alive
    (config (set_drission (new_Browser config_default) (Some 3%nat))) = false
  ∧ ∃ new,
      close env_close_fails
        {| self := set_drission (new_Browser config_default) (Some 3%nat); trace := [] |}
      = (Return (),
         {| self := set_drission (set_drission (new_Browser config_default) (Some 3%nat)) None;
            trace := [] ++ new ++ [GcCollect] |})
      ∧ calls is_PageClose new = [PageClose 3%nat]
      ∧ head new = Some (PageClose 3%nat).
Proof.
  split; [reflexivity|].
  apply (close_terminates_held_page env_close_fails
           (set_drission (new_Browser config_default) (Some 3%nat)) []).
  reflexivity.
Defined.

(** [get_drission_browser] on an object without a handle. *)
Lemma get_without_handle_run (env : Env) (b : Browser) (t : list event) :
  drission b = None →
  get_drission_browser env {| self := b; trace := t |}
  = match DrissionPage_options env t
            (init_arguments (headless (config b)) (extra_chromium_args (config b))
               (disable_security_args b)) with
    | Return h =>
        (Return h,
         {| self := set_drission b (Some h);
            trace := t ++ [Launch (init_arguments (headless (config b))
                                     (extra_chromium_args (config b))
                                     (disable_security_args b))] |})
    | Raise e =>
        (Raise e,
         {| self := b;
            trace := t ++ [Launch (init_arguments (headless (config b))
                                     (extra_chromium_args (config b))
                                     (disable_security_args b))] |})
    end.
Proof.
  intros Hnone.
  unfold get_drission_browser, bind at 1, get_self. simpl. rewrite Hnone.
  unfold _init, bind at 1, get_self. simpl.
  pose proof (init_options b) as Hopt. simpl in Hopt. rewrite Hopt.
  unfold_monad. simpl.
  destruct (DrissionPage_options env t _); done.
Qed.

(** X10.  After [close], whatever the object held before,
    [get_drission_browser] does not answer from [drission]: it launches a
    browser again, with the arguments of the unchanged configuration, and its
    result is the answer of that launch, the handle, which it stores, or the
    exception. *)
Theorem close_then_get_launches_again (env : Env) (b : Browser) (t : list event) :
  get_drission_browser env (close env {| self := b; trace := t |}).2
  = match DrissionPage_options env (events (close env {| self := b; trace := t |}))
            (init_arguments (headless (config b)) (extra_chromium_args (config b))
               (disable_security_args b)) with
    | Return h =>
        (Return h,
         {| self := set_drission b (Some h);
            trace := events (close env {| self := b; trace := t |})
                     ++ [Launch (init_arguments (headless (config b))
                                   (extra_chromium_args (config b))
                                   (disable_security_args b))] |})
    | Raise e =>
        (Raise e,
         {| self := set_drission b None;
            trace := events (close env {| self := b; trace := t |})
                     ++ [Launch (init_arguments (headless (config b))
                                   (extra_chromium_args (config b))
                                   (disable_security_args b))] |})
    end.
Proof.
  rewrite close_run. unfold events. cbn [snd trace].
  rewrite (get_without_handle_run env (set_drission b None) _ eq_refl).
  reflexivity.
Qed.

(** A handle is held and the page's [close] succeeds; the launch that
    follows gives the handle 1, not the 3 held before. *)
Example close_then_get_new_handle :
  get_drission_browser env_browser_running
    (close env_browser_running
       {| self := set_drission (new_Browser config_default) (Some 3%nat); trace := [] |}).2
  = (Return 1%nat,
     {| self := set_drission (new_Browser config_default) (Some 1%nat);
        trace := [PageClose 3%nat; GcCollect;
                  Launch (security_flags)] |}).
Proof. vm_compute. reflexivity. Qed.

(** X11.  Two calls of [get_drission_browser] on an object without a handle, the
    launch of the first succeeding: the second returns the same handle and
    adds nothing to the trace, so the browser is launched once. *)
Theorem get_drission_browser_launches_once
    (env : Env) (b : Browser) (t : list event) (h : Handle) :
  drission b = None →
  result (get_drission_browser env {| self := b; trace := t |}) = Return h →
  get_drission_browser env (get_drission_browser env {| self := b; trace := t |}).2
  = (Return h, (get_drission_browser env {| self := b; trace := t |}).2)
  ∧ calls is_Launch
      (events (get_drission_browser env
                 (get_drission_browser env {| self := b; trace := t |}).2))
    = calls is_Launch t
      ++ [Launch (init_arguments (headless (config b)) (extra_chromium_args (config b))
                    (disable_security_args b))].
Proof.
  intros Hnone. rewrite (get_without_handle_run env b t Hnone).
  unfold result, events.
  destruct (DrissionPage_options env t _) as [h'|e]; simpl; [|done].
  intros [= ->].
  unfold get_drission_browser. unfold_monad. simpl.
  split; [done|]. unfold calls. by rewrite List.filter_app.
Qed.

Lemma get_drission_browser_launches_once_witness :
  drission (new_Browser config_cdp) = None
  ∧ get_drission_browser env_browser_running
      (get_drission_browser env_browser_running
         {| self := new_Browser config_cdp; trace := [] |}).2
    = (Return 1%nat,
       (get_drission_browser env_browser_running
          {| self := new_Browser config_cdp; trace := [] |}).2)
  ∧ calls is_Launch
      (events (get_drission_browser env_browser_running
                 (get_drission_browser env_browser_running
                    {| self := new_Browser config_cdp; trace := [] |}).2))
    = calls is_Launch []
      ++ [Launch (init_arguments (headless (config (new_Browser config_cdp)))
                    (extra_chromium_args (config (new_Browser config_cdp)))
                    (disable_security_args (new_Browser config_cdp)))].
Proof.
  split; [reflexivity|].
  apply (get_drission_browser_launches_once env_browser_running
           (new_Browser config_cdp) [] 1%nat).
  - reflexivity.
  - reflexivity.
Defined.

(** X12.  A launch that fails leaves no handle behind, so the next
    [get_drission_browser] launches again, with the same arguments. *)
Theorem get_drission_browser_retries_failed_launch
    (env : Env) (b : Browser) (t : list event) (e : exn) :
  drission b = None →
  result (get_drission_browser env {| self := b; trace := t |}) = Raise e →
  object (get_drission_browser env {| self := b; trace := t |}) = b
  ∧ events (get_drission_browser env
              (get_drission_browser env {| self := b; trace := t |}).2)
    = t ++ [Launch (init_arguments (headless (config b)) (extra_chromium_args (config b))
                      (disable_security_args b));
            Launch (init_arguments (headless (config b)) (extra_chromium_args (config b))
                      (disable_security_args b))].
Proof.
  intros Hnone. rewrite (get_without_handle_run env b t Hnone).
  unfold result, events, object.
  destruct (DrissionPage_options env t _) as [h'|e']; simpl; [done|].
  intros _. split; [done|].
  rewrite (get_without_handle_run env b _ Hnone).
  destruct (DrissionPage_options env _ _); simpl; by rewrite <- app_assoc.
Qed.

Lemma get_drission_browser_retries_failed_launch_witness :
  drission (new_Browser config_cdp) = None
  ∧ object (get_drission_browser env_launch_fails
              {| self := new_Browser config_cdp; trace := [] |})
    = new_Browser config_cdp
  ∧ events (get_drission_browser env_launch_fails
              (get_drission_browser env_launch_fails
                 {| self := new_Browser config_cdp; trace := [] |}).2)
    = [] ++ [Launch (init_arguments (headless (config (new_Browser config_cdp)))
                       (extra_chromium_args (config (new_Browser config_cdp)))
                       (disable_security_args (new_Browser config_cdp)));
             Launch (init_arguments (headless (config (new_Browser config_cdp)))
                       (extra_chromium_args (config (new_Browser config_cdp)))
                       (disable_security_args (new_Browser config_cdp)))].
Proof.
  split; [reflexivity|].
  apply (get_drission_browser_retries_failed_launch env_launch_fails
           (new_Browser config_cdp) [] (LibraryError "no browser found")).
  - reflexivity.
  - reflexivity.
Defined.

(** X13.  The page [close] terminates is the one [_setup_browser] returned:
    without the keep-alive flag, a [close] right after a successful
    [_setup_browser] starts by calling [close()] on the returned handle. *)
Theorem setup_then_close_terminates_returned_handle
    (env : Env) (b : Browser) (t : list event) (h : Handle) :
  _force_keep_browser_alive (config b) = false →
  result (_setup_browser env {| self := b; trace := t |}) = Return h →
  ∃ rest,
    events (close env (_setup_browser env {| self := b; trace := t |}).2)
    = events (_setup_browser env {| self := b; trace := t |})
      ++ PageClose h :: rest ++ [GcCollect]
    ∧ calls is_PageClose rest = [].
Proof.
  intros Hkeep Hres.
  destruct (setup_browser_summary env b t) as (new & [Hev Hobj] & _).
  rewrite Hres in Hobj. destruct Hobj as [Hobj _].
  unfold events, object in *.
  destruct (_setup_browser env {| self := b; trace := t |}) as [r [b' t']].
  simpl in *. subst b' t'.
  rewrite close_run. simpl. unfold close_calls. simpl. rewrite Hkeep.
  destruct (page_close env (t ++ new) h) as [u|e]; eexists; split; done.
Qed.

Lemma setup_then_close_terminates_returned_handle_witness :
  _force_keep_browser_alive (config (new_Browser config_chrome)) = false
  ∧ ∃ rest,
      events (close env_browser_running
                (_setup_browser env_browser_running
                   {| self := new_Browser config_chrome; trace := [] |}).2)
      = events (_setup_browser env_browser_running
                  {| self := new_Browser config_chrome; trace := [] |})
        ++ PageClose 7%nat :: rest ++ [GcCollect]
      ∧ calls is_PageClose rest = [].
Proof.
  split; [reflexivity|].
  apply (setup_then_close_terminates_returned_handle env_browser_running
           (new_Browser config_chrome) [] 7%nat).
  - reflexivity.
  - reflexivity.
Defined.

(** ** The standard launch, argument by argument *)

Lemma standard_options_closed_form (b : Browser) :
  standard_options b
  = if truthy_dict (proxy (config b))
    then
      match default ∅ (proxy (config b)) !! "server" with
      | Some server => (standard_base b ++ ["--proxy-server=" +:+ server], None)
      | None => (standard_base b, Some (KeyError "server"))
      end
    else (standard_base b, None).
Proof.
  unfold standard_options, standard_base, ChromeOptions_new, add_argument.
  rewrite fold_left_add_argument.
  destruct (headless (config b)); reflexivity.
Qed.

Section StandardMode.

Variable env : Env.
Variable b : Browser.
Variable t : list event.

Hypothesis no_cdp : truthy_str (cdp_url (config b)) = false.
Hypothesis no_wss : truthy_str (wss_url (config b)) = false.
Hypothesis no_path : truthy_str (chrome_instance_path (config b)) = false.

(** With nothing else configured, [_setup_browser] is
    [_setup_standard_browser] under the logging clause. *)
Lemma standard_dispatch :
  _setup_browser env {| self := b; trace := t |}
  = logged (_setup_standard_browser env) {| self := b; trace := t |}.
Proof.
  unfold _setup_browser, logged, try_except, bind at 1, get_self. simpl.
  by rewrite no_cdp, no_wss, no_path.
Qed.

(** The standard launch when [standard_options] ends without an exception. *)
Lemma standard_launch_run (options : ChromeOptions) :
  standard_options b = (options, None) →
  ∃ new,
    events (_setup_browser env {| self := b; trace := t |}) = t ++ new
    ∧ calls is_Launch new = [Launch options]
    ∧ calls is_Get new = []
    ∧ calls is_Popen new = []
    ∧ calls is_Connect new = [].
Proof.
  intros Hopt. rewrite standard_dispatch.
  unfold _setup_standard_browser, events. unfold_monad. simpl. rewrite Hopt. simpl.
  destruct (DrissionPage_options env t options) as [h|e]; simpl.
  - by exists [Launch options].
  - exists [Launch options; setup_error_log e]. by rewrite <- app_assoc.
Qed.

End StandardMode.

(** X14.  With neither endpoint nor path configured and no proxy (none, or an
    empty dictionary), [_setup_browser] launches one browser, with the
    headless flag if set, the thirteen standard arguments, the security
    arguments and the extra arguments, in this order; it neither probes,
    spawns nor attaches. *)
Theorem standard_launch_without_proxy (env : Env) (b : Browser) (t : list event) :
  truthy_str (cdp_url (config b)) = false →
  truthy_str (wss_url (config b)) = false →
  truthy_str (chrome_instance_path (config b)) = false →
  proxy (config b) = None ∨ proxy (config b) = Some ∅ →
  ∃ new,
    events (_setup_browser env {| self := b; trace := t |}) = t ++ new
    ∧ calls is_Launch new
      = [Launch ((if headless (config b) then ["--headless"] else [])
                 ++ standard_args ++ disable_security_args b
                 ++ extra_chromium_args (config b))]
    ∧ calls is_Get new = []
    ∧ calls is_Popen new = []
    ∧ calls is_Connect new = [].
Proof.
  intros Hcdp Hwss Hpath Hproxy.
  apply (standard_launch_run env b t Hcdp Hwss Hpath).
  rewrite standard_options_closed_form.
  destruct Hproxy as [-> | ->]; reflexivity.
Qed.

Lemma standard_launch_without_proxy_witness :
  proxy (config (new_Browser config_default)) = None
  ∧ ∃ new,
      events (_setup_browser env_browser_running
                {| self := new_Browser config_default; trace := [] |}) = [] ++ new
      ∧ calls is_Launch new
        = [Launch ((if headless (config (new_Browser config_default))
                    then ["--headless"] else [])
                   ++ standard_args ++ disable_security_args (new_Browser config_default)
                   ++ extra_chromium_args (config (new_Browser config_default)))]
      ∧ calls is_Get new = []
      ∧ calls is_Popen new = []
      ∧ calls is_Connect new = [].
Proof.
  split; [reflexivity|].
  apply (standard_launch_without_proxy env_browser_running (new_Browser config_default) []).
  - reflexivity.
  - reflexivity.
  - reflexivity.
  - left. reflexivity.
Defined.

(** X15.  With a proxy dictionary that has a ["server"] entry, the launch gets the
    same arguments followed by [--proxy-server=] and that entry, last. *)
Theorem standard_launch_with_proxy
    (env : Env) (b : Browser) (t : list event) (d : gmap string string)
    (server : string) :
  truthy_str (cdp_url (config b)) = false →
  truthy_str (wss_url (config b)) = false →
  truthy_str (chrome_instance_path (config b)) = false →
  proxy (config b) = Some d →
  d !! "server" = Some server →
  ∃ new,
    events (_setup_browser env {| self := b; trace := t |}) = t ++ new
    ∧ calls is_Launch new
      = [Launch ((if headless (config b) then ["--headless"] else [])
                 ++ standard_args ++ disable_security_args b
                 ++ extra_chromium_args (config b)
                 ++ ["--proxy-server=" +:+ server])]
    ∧ calls is_Get new = []
    ∧ calls is_Popen new = []
    ∧ calls is_Connect new = [].
Proof.
  intros Hcdp Hwss Hpath Hproxy Hserver.
  apply (standard_launch_run env b t Hcdp Hwss Hpath).
  rewrite standard_options_closed_form, Hproxy. simpl.
  assert (Hne : d ≠ ∅).
  { intros ->. by rewrite lookup_empty in Hserver. }
  rewrite (bool_decide_eq_false_2 _ Hne). simpl. rewrite Hserver.
  unfold standard_base. by rewrite <- !app_assoc.
Qed.

Lemma standard_launch_with_proxy_witness :
  proxy (config (new_Browser config_proxy)) = Some {[ "server" := "http://proxy:8080" ]}
  ∧ ∃ new,
      events (_setup_browser env_browser_running
                {| self := new_Browser config_proxy; trace := [] |}) = [] ++ new
      ∧ calls is_Launch new
        = [Launch ((if headless (config (new_Browser config_proxy))
                    then ["--headless"] else [])
                   ++ standard_args ++ disable_security_args (new_Browser config_proxy)
                   ++ extra_chromium_args (config (new_Browser config_proxy))
                   ++ ["--proxy-server=" +:+ "http://proxy:8080"])]
      ∧ calls is_Get new = []
      ∧ calls is_Popen new = []
      ∧ calls is_Connect new = [].
Proof.
  split; [reflexivity|].
  apply (standard_launch_with_proxy env_browser_running (new_Browser config_proxy) []
           {[ "server" := "http://proxy:8080" ]} "http://proxy:8080").
  - reflexivity.
  - reflexivity.
  - reflexivity.
  - reflexivity.
  - vm_compute. reflexivity.
Defined.

(** X16.  With a proxy dictionary that is not empty and has no ["server"] entry,
    the subscript raises: [_setup_browser] logs and raises
    [KeyError('server')], launches nothing and leaves the object as it
    was. *)
Theorem standard_launch_proxy_without_server
    (env : Env) (b : Browser) (t : list event) (d : gmap string string) :
  truthy_str (cdp_url (config b)) = false →
  truthy_str (wss_url (config b)) = false →
  truthy_str (chrome_instance_path (config b)) = false →
  proxy (config b) = Some d →
  d ≠ ∅ →
  d !! "server" = None →
  _setup_browser env {| self := b; trace := t |}
  = (Raise (KeyError "server"),
     {| self := b;
        trace := t ++ [Log ERROR "Failed to initialize DrissionPage browser: 'server'"] |}).
Proof.
  intros Hcdp Hwss Hpath Hproxy Hne Hserver.
  rewrite (standard_dispatch env b t Hcdp Hwss Hpath).
  unfold _setup_standard_browser. unfold_monad. simpl.
  rewrite standard_options_closed_form, Hproxy. simpl.
  rewrite (bool_decide_eq_false_2 _ Hne). simpl. by rewrite Hserver.
Qed.

Lemma standard_launch_proxy_without_server_witness :
  proxy (config (new_Browser config_proxy_without_server))
  = Some {[ "username" := "me" ]}
  ∧ _setup_browser env_browser_running
      {| self := new_Browser config_proxy_without_server; trace := [] |}
    = (Raise (KeyError "server"),
       {| self := new_Browser config_proxy_without_server;
          trace := [] ++ [Log ERROR "Failed to initialize DrissionPage browser: 'server'"] |}).
Proof.
  split; [reflexivity|].
  apply (standard_launch_proxy_without_server env_browser_running
           (new_Browser config_proxy_without_server) [] {[ "username" := "me" ]}).
  - reflexivity.
  - reflexivity.
  - reflexivity.
  - reflexivity.
  - vm_compute. discriminate.
  - vm_compute. reflexivity.
Defined.

(** ** Which switch puts which argument on the command line *)

Ltac not_in_literal_list H :=
  repeat (apply elem_of_cons in H as [H|H]; [discriminate H|]);
  by apply elem_of_nil in H.

Lemma security_flags_apart (flag : string) :
  flag ∈ security_flags →
  flag ≠ "--headless"
  ∧ (flag ∉ standard_args)
  ∧ (∀ server, flag ≠ "--proxy-server=" +:+ server).
Proof.
  intros H. unfold security_flags in H.
  repeat (apply elem_of_cons in H as [->|H]);
    [| | |by apply elem_of_nil in H];
    (split; [discriminate|]);
    (split; [intros Hin; not_in_literal_list Hin|intros server; simpl; discriminate]).
Qed.

Lemma headless_flag_apart :
  ("--headless" ∉ standard_args)
  ∧ ("--headless" ∉ security_flags)
  ∧ (∀ server, "--headless" ≠ "--proxy-server=" +:+ server).
Proof.
  split; [intros Hin; not_in_literal_list Hin|].
  split; [intros Hin; not_in_literal_list Hin|].
  intros server. simpl. discriminate.
Qed.

(** An argument that is not a proxy argument is among the standard options
    exactly when it is among those built before the proxy is looked at. *)
Lemma standard_options_elem (b : Browser) (x : string) :
  (∀ server, x ≠ "--proxy-server=" +:+ server) →
  x ∈ (standard_options b).1 ↔ x ∈ standard_base b.
Proof.
  intros Hx. rewrite standard_options_closed_form.
  destruct (truthy_dict (proxy (config b))); [|done].
  destruct (default ∅ (proxy (config b)) !! "server") as [server|]; [|done].
  simpl. rewrite elem_of_app, list_elem_of_singleton.
  specialize (Hx server). tauto.
Qed.

Lemma new_Browser_security_args (cfg : BrowserConfig) :
  disable_security_args (new_Browser cfg)
  = if disable_security cfg then security_flags else [].
Proof. reflexivity. Qed.

(** X17.  For an object made by [Browser(config)]: each of the three
    web-security arguments, unless the caller put it among the extra
    arguments, is on the command line of the standard launch, and on that of
    [_init], exactly when [disable_security] is set. *)
Theorem security_arguments_iff_disable_security
    (cfg : BrowserConfig) (flag : string) :
  flag ∈ security_flags →
  flag ∉ extra_chromium_args cfg →
  (flag ∈ (standard_options (new_Browser cfg)).1 ↔ disable_security cfg = true)
  ∧ (flag ∈ init_arguments (headless cfg) (extra_chromium_args cfg)
              (disable_security_args (new_Browser cfg))
     ↔ disable_security cfg = true).
Proof.
  intros Hflag Hextra.
  destruct (security_flags_apart flag Hflag) as (Hhead & Hstd & Hproxy).
  rewrite (standard_options_elem _ _ Hproxy).
  unfold standard_base, init_arguments.
  rewrite new_Browser_security_args.
  change (config (new_Browser cfg)) with cfg.
  rewrite !elem_of_app.
  assert (Hh : flag ∉ (if headless cfg then ["--headless"] else [])).
  { destruct (headless cfg); [|apply not_elem_of_nil].
    intros H. apply list_elem_of_singleton in H. done. }
  pose proof (not_elem_of_nil flag) as Hnil.
  destruct (disable_security cfg).
  - split; (split; [done | intros _; tauto]).
  - split; (split; [intros H; exfalso; tauto | done]).
Qed.

Lemma security_arguments_iff_disable_security_witness :
  "--disable-web-security" ∈ security_flags
  ∧ ("--disable-web-security" ∉ extra_chromium_args config_proxy)
  ∧ ("--disable-web-security" ∈ (standard_options (new_Browser config_proxy)).1
     ↔ disable_security config_proxy = true)
  ∧ ("--disable-web-security"
       ∈ init_arguments (headless config_proxy) (extra_chromium_args config_proxy)
           (disable_security_args (new_Browser config_proxy))
     ↔ disable_security config_proxy = true).
Proof.
  assert (H1 : "--disable-web-security" ∈ security_flags) by apply list_elem_of_here.
  assert (H2 : "--disable-web-security" ∉ extra_chromium_args config_proxy).
  { intros Hin. simpl in Hin. not_in_literal_list Hin. }
  split; [exact H1|]. split; [exact H2|].
  exact (security_arguments_iff_disable_security config_proxy "--disable-web-security" H1 H2).
Defined.

(** X18.  For an object made by [Browser(config)]: unless the caller put
    [--headless] among the extra arguments, it is on the command line of the
    standard launch, and on that of [_init], exactly when [headless] is
    set. *)
Theorem headless_argument_iff_headless (cfg : BrowserConfig) :
  "--headless" ∉ extra_chromium_args cfg →
  ("--headless" ∈ (standard_options (new_Browser cfg)).1 ↔ headless cfg = true)
  ∧ ("--headless" ∈ init_arguments (headless cfg) (extra_chromium_args cfg)
                      (disable_security_args (new_Browser cfg))
     ↔ headless cfg = true).
Proof.
  intros Hextra.
  destruct headless_flag_apart as (Hstd & Hsec & Hproxy).
  rewrite (standard_options_elem _ _ Hproxy).
  unfold standard_base, init_arguments.
  rewrite new_Browser_security_args.
  change (config (new_Browser cfg)) with cfg.
  rewrite !elem_of_app.
  assert (Hs : "--headless" ∉ (if disable_security cfg then security_flags else [])).
  { destruct (disable_security cfg); [done|apply not_elem_of_nil]. }
  pose proof (not_elem_of_nil "--headless") as Hnil.
  pose proof (list_elem_of_here "--headless" []) as Hhere.
  destruct (headless cfg).
  - split; (split; [done | intros _; tauto]).
  - split; (split; [intros H; exfalso; tauto | done]).
Qed.

Lemma headless_argument_iff_headless_witness :
  ("--headless" ∉ extra_chromium_args config_chrome)
  ∧ ("--headless" ∈ (standard_options (new_Browser config_chrome)).1
     ↔ headless config_chrome = true)
  ∧ ("--headless" ∈ init_arguments (headless config_chrome)
                      (extra_chromium_args config_chrome)
                      (disable_security_args (new_Browser config_chrome))
     ↔ headless config_chrome = true).
Proof.
  assert (H : "--headless" ∉ extra_chromium_args config_chrome).
  { intros Hin. simpl in Hin. not_in_literal_list Hin. }
  split; [exact H|].
  exact (headless_argument_iff_headless config_chrome H).
Defined.

(** ** Attaching: the slip in the first [try], and the remote endpoints *)

(** X19.  Reuse-or-launch: the first probe is answered with 200, but the attach
    raises a [requests.ConnectionError].  The [except] clause written for the
    probe catches it: the code logs that no instance was found and spawns a
    process, once. *)
Theorem reuse_or_launch_attach_ConnectionError_spawns
    (env : Env) (b : Browser) (t : list event) (path : string) (e : exn) :
  truthy_str (cdp_url (config b)) = false →
  truthy_str (wss_url (config b)) = false →
  chrome_instance_path (config b) = Some path →
  path ≠ "" →
  requests_get env t probe_url = Return 200 →
  DrissionPage_url env
    (t ++ [Get probe_url 2; Log INFO "Reusing existing Chrome instance"]) debug_url
  = Raise e →
  isinstance_ConnectionError e = true →
  ∃ post,
    events (_setup_browser env {| self := b; trace := t |})
    = t ++ [Get probe_url 2;
            Log INFO "Reusing existing Chrome instance";
            Connect debug_url;
            Log DEBUG "No existing Chrome instance found, starting a new one";
            Popen ([path; "--remote-debugging-port=9222"]
                     ++ extra_chromium_args (config b)) DEVNULL DEVNULL]
        ++ post
    ∧ calls is_Popen post = [].
Proof.
  intros Hcdp Hwss Hpath Hne Hprobe Hattach Hkind.
  destruct (logged_events (_setup_browser_with_instance env) {| self := b; trace := t |})
    as (tail & Hlog & Htail & _).
  rewrite (reuse_or_launch_dispatch env b t path Hcdp Hwss Hpath Hne), Hlog.
  rewrite (setup_with_instance_by_first_probe env b t path Hpath Hne).
  rewrite Hprobe. change (200 =? 200) with true. cbv iota.
  rewrite Hattach, Hkind.
  match goal with |- context [spawn_poll_attach env b path ?w] =>
    destruct (spawn_poll_attach_bounded env b path w) as (post & Hev & Hmost & _)
  end.
  rewrite Hev. cbn [trace]. exists (post ++ tail).
  split.
  - unfold spawn_of. rewrite <- !app_assoc. reflexivity.
  - pose proof (no_Popen_of_at_most _ _ _ _ _ Hmost) as HP.
    unfold calls in *. by rewrite List.filter_app, Htail, HP.
Qed.

Lemma reuse_or_launch_attach_ConnectionError_spawns_witness :
  requests_get env_probe_ok_attach_refused [] probe_url = Return 200
  ∧ ∃ post,
      events (_setup_browser env_probe_ok_attach_refused
                {| self := new_Browser config_chrome; trace := [] |})
      = [] ++ [Get probe_url 2;
               Log INFO "Reusing existing Chrome instance";
               Connect debug_url;
               Log DEBUG "No existing Chrome instance found, starting a new one";
               Popen (["/usr/bin/google-chrome"; "--remote-debugging-port=9222"]
                        ++ extra_chromium_args (config (new_Browser config_chrome)))
                 DEVNULL DEVNULL]
          ++ post
      ∧ calls is_Popen post = [].
Proof.
  split; [reflexivity|].
  apply (reuse_or_launch_attach_ConnectionError_spawns env_probe_ok_attach_refused
           (new_Browser config_chrome) [] "/usr/bin/google-chrome"
           (requests_ConnectionError "Connection refused")).
  - reflexivity.
  - reflexivity.
  - reflexivity.
  - discriminate.
  - reflexivity.
  - reflexivity.
  - reflexivity.
Defined.

(** X20.  Attach to a remote endpoint, CDP or WSS: [_setup_browser] logs the
    endpoint, calls [DrissionPage(url=...)] on it once, and its result is
    that call's answer: the handle, which it stores, or the exception,
    unchanged, which it logs before raising it; there is no second attempt. *)
Theorem remote_attach_result_is_connect_answer
    (env : Env) (b : Browser) (t : list event) (name url : string) :
  remote_endpoint (config b) = Some (name, url) →
  _setup_browser env {| self := b; trace := t |}
  = match DrissionPage_url env
            (t ++ [Log INFO ("Connecting to remote browser via " +:+ name +:+ " " +:+ url)])
            url with
    | Return h =>
        (Return h,
         {| self := set_drission b (Some h);
            trace := t ++ [Log INFO ("Connecting to remote browser via "
                                     +:+ name +:+ " " +:+ url);
                           Connect url] |})
    | Raise e =>
        (Raise e,
         {| self := b;
            trace := t ++ [Log INFO ("Connecting to remote browser via "
                                     +:+ name +:+ " " +:+ url);
                           Connect url;
                           setup_error_log e] |})
    end.
Proof.
  unfold remote_endpoint. intros Hremote.
  unfold _setup_browser, logged, try_except, bind at 1, get_self. simpl.
  destruct (truthy_str (cdp_url (config b))) eqn:Hcdp.
  - injection Hremote as <- <-.
    unfold _setup_cdp. unfold_monad. simpl. rewrite Hcdp. simpl.
    destruct (DrissionPage_url env _ _) as [h|e]; simpl;
      unfold setup_error_log; by rewrite <- ?app_assoc.
  - destruct (truthy_str (wss_url (config b))) eqn:Hwss; [|done].
    injection Hremote as <- <-.
    unfold _setup_wss. unfold_monad. simpl. rewrite Hwss. simpl.
    destruct (DrissionPage_url env _ _) as [h|e]; simpl;
      unfold setup_error_log; by rewrite <- ?app_assoc.
Qed.

Lemma remote_attach_result_is_connect_answer_witness :
  remote_endpoint (config (new_Browser config_wss)) = Some ("WSS", "ws://remote:3000")
  ∧ _setup_browser env_nothing_listens {| self := new_Browser config_wss; trace := [] |}
    = (Raise (LibraryError "cannot connect"),
       {| self := new_Browser config_wss;
          trace := [] ++ [Log INFO ("Connecting to remote browser via "
                                    +:+ "WSS" +:+ " " +:+ "ws://remote:3000");
                          Connect "ws://remote:3000";
                          setup_error_log (LibraryError "cannot connect")] |}).
Proof.
  split; [reflexivity|].
  exact (remote_attach_result_is_connect_answer env_nothing_listens
           (new_Browser config_wss) [] "WSS" "ws://remote:3000" eq_refl).
Defined.

(** ** The public entry point and the configured mode *)

(** C3, at the input on which the code departs from it.  With a CDP
    endpoint configured and no handle held, [get_drission_browser] goes to
    [_init]: it never calls [DrissionPage(url=...)], on that endpoint or any
    other, and launches a browser instead; it does not probe either. *)
Theorem get_drission_browser_ignores_cdp
    (env : Env) (b : Browser) (t : list event) (url : string) :
  cdp_url (config b) = Some url →
  url ≠ "" →
  drission b = None →
  ∃ new,
    events (get_drission_browser env {| self := b; trace := t |}) = t ++ new
    ∧ calls is_Connect new = []
    ∧ calls is_Get new = []
    ∧ calls is_Launch new
      = [Launch (init_arguments (headless (config b)) (extra_chromium_args (config b))
                   (disable_security_args b))].
Proof.
  intros _ _ Hnone.
  rewrite (get_without_handle_run env b t Hnone). unfold events.
  eexists. split; [destruct (DrissionPage_options env t _); reflexivity|]. done.
Qed.

Lemma get_drission_browser_ignores_cdp_witness :
  cdp_url (config (new_Browser config_cdp)) = Some "http://remote:9222"
  ∧ ∃ new,
      events (get_drission_browser env_browser_running
                {| self := new_Browser config_cdp; trace := [] |}) = [] ++ new
      ∧ calls is_Connect new = []
      ∧ calls is_Get new = []
      ∧ calls is_Launch new
        = [Launch (init_arguments (headless (config (new_Browser config_cdp)))
                     (extra_chromium_args (config (new_Browser config_cdp)))
                     (disable_security_args (new_Browser config_cdp)))].
Proof.
  split; [reflexivity|].
  apply (get_drission_browser_ignores_cdp env_browser_running (new_Browser config_cdp) []
           "http://remote:9222").
  - reflexivity.
  - discriminate.
  - reflexivity.
Defined.

(** C5, at the inputs on which the code departs from it.  Whatever mode
    the configuration selects, [get_drission_browser] on an object without a
    handle makes the launch of [_init] its first and only call to the
    outside: no attach, no probe, no spawn. *)
Theorem get_drission_browser_selects_no_mode
    (env : Env) (b : Browser) (t : list event) (mode : Mode) :
  spec_select_mode (config b) = mode →
  drission b = None →
  ∃ new,
    events (get_drission_browser env {| self := b; trace := t |}) = t ++ new
    ∧ calls is_outside_call new
      = [Launch (init_arguments (headless (config b)) (extra_chromium_args (config b))
                   (disable_security_args b))].
Proof.
  intros _ Hnone.
  rewrite (get_without_handle_run env b t Hnone). unfold events.
  eexists. split; [destruct (DrissionPage_options env t _); reflexivity|]. done.
Qed.

Lemma get_drission_browser_selects_no_mode_witness :
  spec_select_mode (config (new_Browser config_wss)) = AttachByWSS
  ∧ ∃ new,
      events (get_drission_browser env_browser_running
                {| self := new_Browser config_wss; trace := [] |}) = [] ++ new
      ∧ calls is_outside_call new
        = [Launch (init_arguments (headless (config (new_Browser config_wss)))
                     (extra_chromium_args (config (new_Browser config_wss)))
                     (disable_security_args (new_Browser config_wss)))].
Proof.
  split; [reflexivity|].
  apply (get_drission_browser_selects_no_mode env_browser_running
           (new_Browser config_wss) [] AttachByWSS).
  - reflexivity.
  - reflexivity.
Defined.

(** ** The spawn that fails *)

(** X21.  Reuse-or-launch: the first probe misses and [subprocess.Popen]
    raises (the program cannot be started, or its arguments are refused).
    The exception leaves [_setup_browser], logged and unchanged: there is no
    poll, no sleep and no attach, and the object is as it was. *)
Theorem reuse_or_launch_spawn_failure_propagates
    (env : Env) (b : Browser) (t : list event) (path : string) (f : spawn_failure) :
  truthy_str (cdp_url (config b)) = false →
  truthy_str (wss_url (config b)) = false →
  chrome_instance_path (config b) = Some path →
  path ≠ "" →
  probe_missed (requests_get env t probe_url) = true →
  subprocess_Popen env (t ++ after_missed_probe env t) (spawn_argv b path) = Some f →
  _setup_browser env {| self := b; trace := t |}
  = (Raise (spawn_exn f),
     {| self := b;
        trace := t ++ after_missed_probe env t
                 ++ [spawn_of b path; setup_error_log (spawn_exn f)] |}).
Proof.
  intros Hcdp Hwss Hpath Hne Hmiss Hspawn.
  rewrite (reuse_or_launch_dispatch env b t path Hcdp Hwss Hpath Hne).
  unfold logged, try_except.
  rewrite (missed_probe_then_spawn env b t path Hpath Hne Hmiss).
  rewrite spawn_poll_attach_run. cbn [self trace]. rewrite Hspawn.
  unfold_monad. cbn [self trace]. unfold setup_error_log.
  by rewrite <- !app_assoc.
Qed.

Lemma reuse_or_launch_spawn_failure_propagates_witness :
  probe_missed (requests_get env_chrome_missing [] probe_url) = true
  ∧ _setup_browser env_chrome_missing {| self := new_Browser config_chrome; trace := [] |}
    = (Raise (OSError "[Errno 2] No such file or directory: '/usr/bin/google-chrome'"),
       {| self := new_Browser config_chrome;
          trace := [] ++ after_missed_probe env_chrome_missing []
                   ++ [spawn_of (new_Browser config_chrome) "/usr/bin/google-chrome";
                       setup_error_log
                         (spawn_exn
                            (cannot_execute
                               "[Errno 2] No such file or directory: '/usr/bin/google-chrome'"))] |}).
Proof.
  split; [reflexivity|].
  apply (reuse_or_launch_spawn_failure_propagates env_chrome_missing
           (new_Browser config_chrome) [] "/usr/bin/google-chrome"
           (cannot_execute "[Errno 2] No such file or directory: '/usr/bin/google-chrome'")).
  - reflexivity.
  - reflexivity.
  - reflexivity.
  - discriminate.
  - reflexivity.
  - reflexivity.
Defined.

(** ** What each mode does first *)

Lemma first_call_app_logs (new tail : list event) :
  calls is_outside_call tail = [] →
  first_call (new ++ tail) = first_call new.
Proof.
  intros H. unfold first_call, calls in *.
  by rewrite List.filter_app, H, app_nil_r.
Qed.

(** [_setup_browser_with_instance] with a path starts with the probe. *)
Lemma setup_with_instance_starts_with_probe
    (env : Env) (b : Browser) (t : list event) (path : string) :
  chrome_instance_path (config b) = Some path →
  path ≠ "" →
  ∃ rest,
    events (_setup_browser_with_instance env {| self := b; trace := t |})
    = t ++ Get probe_url 2 :: rest.
Proof.
  intros Hpath Hne.
  rewrite (setup_with_instance_by_first_probe env b t path Hpath Hne).
  assert (Htail : ∀ pre : list event, ∃ rest,
    events (spawn_poll_attach env b path
              {| self := b; trace := t ++ Get probe_url 2 :: pre |})
    = t ++ Get probe_url 2 :: rest).
  { intros pre.
    destruct (spawn_poll_attach_bounded env b path
                {| self := b; trace := t ++ Get probe_url 2 :: pre |})
      as (post & Hev & _).
    exists (pre ++ spawn_of b path :: post). rewrite Hev. cbn [trace].
    by rewrite <- app_assoc. }
  destruct (requests_get env t probe_url) as [status|e].
  - destruct (status =? 200).
    + destruct (DrissionPage_url env _ debug_url) as [h|e].
      * by eexists.
      * destruct (isinstance_ConnectionError e); [apply Htail|by eexists].
    + apply (Htail []).
  - destruct (isinstance_ConnectionError e); [apply Htail|by eexists].
Qed.

(** X23.  The mode that the priority rules select decides the first call
    [_setup_browser] makes to the outside, log lines apart: with a CDP
    endpoint, the attach to that endpoint; else with a WSS endpoint, the
    attach to that one; else with an executable path, the probe of the local
    debugging endpoint; else the launch with the standard options, or no call
    at all when building these options raises. *)
Theorem setup_browser_first_call (env : Env) (b : Browser) (t : list event) :
  ∃ new,
    events (_setup_browser env {| self := b; trace := t |}) = t ++ new
    ∧ first_call new
      = match spec_select_mode (config b) with
        | AttachByCDP => Connect <$> cdp_url (config b)
        | AttachByWSS => Connect <$> wss_url (config b)
        | ReuseOrLaunch => Some (Get probe_url 2)
        | StandardLaunch =>
            match (standard_options b).2 with
            | None => Some (Launch (standard_options b).1)
            | Some _ => None
            end
        end.
Proof.
  unfold _setup_browser.
  match goal with |- context [logged ?body ?w] =>
    destruct (logged_events body w) as (tail & Hlog & _ & Hout);
    assert (Hbody : ∃ new,
      events (body w) = t ++ new
      ∧ first_call new
        = match spec_select_mode (config b) with
          | AttachByCDP => Connect <$> cdp_url (config b)
          | AttachByWSS => Connect <$> wss_url (config b)
          | ReuseOrLaunch => Some (Get probe_url 2)
          | StandardLaunch =>
              match (standard_options b).2 with
              | None => Some (Launch (standard_options b).1)
              | Some _ => None
              end
          end)
  end.
  { rewrite spec_select_mode_rows, !spec_configured_truthy.
    unfold bind at 1, get_self. cbn [self fst snd].
    destruct (truthy_str (cdp_url (config b))) eqn:Hcdp;
      [|destruct (truthy_str (wss_url (config b))) eqn:Hwss;
        [|destruct (truthy_str (chrome_instance_path (config b))) eqn:Hpath]].
    - destruct (cdp_url (config b)) as [url|] eqn:Hurl; [|done].
      unfold _setup_cdp, events. unfold_monad. simpl. rewrite Hurl, Hcdp. simpl.
      match goal with |- context [DrissionPage_url env ?hist url] =>
        destruct (DrissionPage_url env hist url) end; simpl;
        eexists; (split; [rewrite <- app_assoc; reflexivity|reflexivity]).
    - destruct (wss_url (config b)) as [url|] eqn:Hurl; [|done].
      unfold _setup_wss, events. unfold_monad. simpl. rewrite Hurl, Hwss. simpl.
      match goal with |- context [DrissionPage_url env ?hist url] =>
        destruct (DrissionPage_url env hist url) end; simpl;
        eexists; (split; [rewrite <- app_assoc; reflexivity|reflexivity]).
    - destruct (chrome_instance_path (config b)) as [path|] eqn:Hp; [|done].
      assert (Hne : path ≠ "") by (intros ->; by simpl in Hpath).
      destruct (setup_with_instance_starts_with_probe env b t path Hp Hne) as (rest & Hev).
      exists (Get probe_url 2 :: rest). done.
    - unfold _setup_standard_browser, events. unfold_monad. simpl.
      destruct (standard_options b) as [options [e|]]; simpl.
      + exists []. by rewrite app_nil_r.
      + destruct (DrissionPage_options env t options); simpl;
          by exists [Launch options]. }
  destruct Hbody as (new & Hev & Hfirst).
  exists (new ++ tail). split.
  - by rewrite Hlog, Hev, app_assoc.
  - by rewrite (first_call_app_logs _ _ Hout).
Qed.
